(** * ccfeplot: the [CcfePlot] plotting session

    A shallow embedding of [src/ccfeplot/ccfeplot.py].  The class wraps a
    renderer (matplotlib); the renderer's side of every call is recorded as
    an event in a trace, the object's attributes are the fields of a record,
    and a method is a function in a state-and-exception monad over the pair
    of both. *)

From Stdlib Require Import ZArith Lia.
From stdpp Require Import gmap strings list fin_maps.

#[local] Set Warnings "-register-all".

Open Scope string_scope.
Open Scope list_scope.
Open Scope Z_scope.

(** ** Python values *)

(** A drawing surface created by the renderer: the figure it belongs to and
    its place in that figure's grid. *)
Record Axes := mkAxes { ax_fig : nat; ax_row : nat; ax_col : nat }.

Global Instance Axes_eq_dec : EqDecision Axes.
Proof. solve_decision. Defined.

(** A dictionary key that is text or an integer. *)
Inductive pykey :=
| KStr (s : string)
| KInt (n : Z).

Global Instance pykey_eq_dec : EqDecision pykey.
Proof. solve_decision. Defined.

(** The values that travel through the wrapper: data, option values and
    handles.  A float is kept as its decimal literal [m * 10^e]; the wrapper
    only ever hands it on. *)
Inductive pyval :=
| VNone
| VBool (b : bool)
| VInt (n : Z)
| VFloat (m e : Z)
| VStr (s : string)
| VTuple (l : list pyval)
| VList (l : list pyval)
| VDict (d : list (pykey * pyval))
| VAxes (a : Axes).

(** The exceptions the code raises or lets through. *)
Inductive exn :=
| NotImplementedError
| ValueError
| IndexError
| KeyError
| TypeError
| AttributeError.

Global Instance exn_eq_dec : EqDecision exn.
Proof. solve_decision. Defined.

(** A sequence subscript [l[i]] with a Python integer: negative positions
    count from the end, anything else out of range raises [IndexError]. *)
Definition py_index {A} (l : list A) (i : Z) : exn + A :=
  let n := Z.of_nat (length l) in
  if decide (0 ≤ i < n) then
    match l !! Z.to_nat i with Some a => inr a | None => inl IndexError end
  else if decide (- n ≤ i < 0) then
    match l !! Z.to_nat (n + i) with Some a => inr a | None => inl IndexError end
  else inl IndexError.

(** The characters of a string, each as a one-character string. *)
Fixpoint chars (s : string) : list string :=
  match s with
  | EmptyString => []
  | String c s' => String c EmptyString :: chars s'
  end.

Fixpoint dict_get {V} (k : pykey) (d : list (pykey * V)) : option V :=
  match d with
  | [] => None
  | (k', v) :: d' => if decide (k = k') then Some v else dict_get k d'
  end.

(** [container[key]].  A dictionary looks the key up ([KeyError] when it is
    absent, [TypeError] when the key cannot be hashed); a list, tuple or
    string takes an integer position ([True] and [False] count as 1 and 0);
    nothing else can be subscripted. *)
Definition getitem (container key : pyval) : exn + pyval :=
  match container with
  | VDict d =>
      match key with
      | VStr s => from_option inr (inl KeyError) (dict_get (KStr s) d)
      | VInt n => from_option inr (inl KeyError) (dict_get (KInt n) d)
      | VBool b => from_option inr (inl KeyError) (dict_get (KInt (Z.b2z b)) d)
      | VList _ | VDict _ => inl TypeError
      | _ => inl KeyError
      end
  | VList l | VTuple l =>
      match key with
      | VInt n => py_index l n
      | VBool b => py_index l (Z.b2z b)
      | _ => inl TypeError
      end
  | VStr s =>
      match key with
      | VInt n => py_index (VStr <$> chars s) n
      | VBool b => py_index (VStr <$> chars s) (Z.b2z b)
      | _ => inl TypeError
      end
  | _ => inl TypeError
  end.

Definition key_val (k : pykey) : pyval :=
  match k with KStr s => VStr s | KInt n => VInt n end.

(** [for key in v]: what iterating over [v] yields. *)
Definition py_iter (v : pyval) : exn + list pyval :=
  match v with
  | VDict d => inr (key_val ∘ fst <$> d)
  | VList l | VTuple l => inr l
  | VStr s => inr (VStr <$> chars s)
  | _ => inl TypeError
  end.

(** [len(v)]. *)
Definition py_len (v : pyval) : exn + Z :=
  match v with
  | VDict d => inr (Z.of_nat (length d))
  | VList l | VTuple l => inr (Z.of_nat (length l))
  | VStr s => inr (Z.of_nat (String.length s))
  | _ => inl TypeError
  end.

(** [v[:]], the full slice. *)
Definition py_slice_all (v : pyval) : exn + pyval :=
  match v with
  | VList _ | VTuple _ | VStr _ => inr v
  | _ => inl TypeError
  end.

(** Truth value of an object in a condition. *)
Definition py_truth (v : pyval) : bool :=
  match v with
  | VNone => false
  | VBool b => b
  | VInt n => negb (Z.eqb n 0)
  | VFloat m _ => negb (Z.eqb m 0)
  | VStr s => negb (String.eqb s "")
  | VTuple l | VList l => negb (Nat.eqb (length l) 0)
  | VDict d => negb (Nat.eqb (length d) 0)
  | VAxes _ => true
  end.

(** [str.lower()] on the ASCII letters. *)
Definition lower_ascii (c : Ascii.ascii) : Ascii.ascii :=
  let n := Ascii.nat_of_ascii c in
  if ((65 <=? n) && (n <=? 90))%nat then Ascii.ascii_of_nat (n + 32) else c.

Fixpoint lower (s : string) : string :=
  match s with
  | EmptyString => EmptyString
  | String c s' => String (lower_ascii c) (lower s')
  end.

(** [numpy.arange(n)] for an integer [n]. *)
Definition arange (n : Z) : list Z := Z.of_nat <$> seq 0 (Z.to_nat n).

(** An insertion-ordered dictionary ([OrderedDict]): assigning to a key that
    is present replaces the value where it stands, a new key goes last. *)
Fixpoint dict_set {K V} `{EqDecision K} (k : K) (v : V) (d : list (K * V)) : list (K * V) :=
  match d with
  | [] => [(k, v)]
  | (k', v') :: d' =>
      if decide (k = k') then (k, v) :: d' else (k', v') :: dict_set k v d'
  end.

(** ** The renderer *)

(** What a caller may hand over as a drawing surface: the text ['default'],
    a surface, a tuple or a list of integers, an integer, or [None]. *)
Inductive target :=
| TStr (s : string)
| TAxes (a : Axes)
| TTuple (l : list Z)
| TList (l : list Z)
| TInt (n : Z)
| TNone.

Global Instance target_eq_dec : EqDecision target.
Proof. solve_decision. Defined.

(** One call into the renderer, or one line printed. *)
Inductive event :=
| EvSubplots (fig : nat) (nrows ncols : Z) (fig_kw : gmap string pyval)
| EvSca (a : Axes)
| EvTickFormat (a : Axes)
| EvPlot (a : Axes) (x : pyval) (args : list pyval) (kw : gmap string pyval)
| EvLegend (a : Axes) (kw : gmap string pyval) (leg : nat)
| EvDraggable (leg : nat)
| EvAutoscale (a : Axes) (enable axis tight : pyval)
| EvShow (fig : nat)
| EvDraw (fig : nat)
| EvPrint (msg : string).

(** The renderer's global state: its interactive flag, the figures whose
    window was closed, the next figure and legend it will create, and the
    calls made so far, oldest first. *)
Record Env := mkEnv {
  interactive : bool;
  closed_figs : list nat;
  next_fig : nat;
  next_leg : nat;
  trace : list event
}.

(** What the module reads off the renderer when it is loaded and when it
    sorts keyword options: [hasattr(plt.subplots, key)],
    [hasattr(plt.legend, key)], [hasattr(plt.plot, key)], each an attribute
    probe on a function object, and [rcParams['figure.dpi']]; and whether
    [plt.subplots] takes a given set of figure options or rejects it. *)
Class Renderer := {
  hasattr_subplots : string → bool;
  hasattr_legend : string → bool;
  hasattr_plot : string → bool;
  rc_figure_dpi : pyval;
  subplots_accepts : gmap string pyval → bool
}.

(** The attribute names of a Python function object. *)
Definition function_attributes : list string :=
  [ "__annotations__"; "__builtins__"; "__call__"; "__class__";
    "__closure__"; "__code__"; "__defaults__"; "__delattr__"; "__dict__";
    "__dir__"; "__doc__"; "__eq__"; "__format__"; "__ge__"; "__get__";
    "__getattribute__"; "__getstate__"; "__globals__"; "__gt__";
    "__hash__"; "__init__"; "__init_subclass__"; "__kwdefaults__";
    "__le__"; "__lt__"; "__module__"; "__name__"; "__ne__"; "__new__";
    "__qualname__"; "__reduce__"; "__reduce_ex__"; "__repr__";
    "__setattr__"; "__sizeof__"; "__str__"; "__subclasshook__";
    "__type_params__"; "__wrapped__" ].

Definition function_hasattr (key : string) : bool :=
  bool_decide (key ∈ function_attributes).

(** The keyword options [plt.subplots] knows, its own and those it hands
    to the figure; [squeeze] is set by the caller in this code. *)
Definition figure_options : list string :=
  [ "figsize"; "dpi"; "sharex"; "sharey"; "num"; "facecolor"; "edgecolor";
    "frameon"; "FigureClass"; "clear"; "subplot_kw"; "gridspec_kw";
    "linewidth"; "subplotpars"; "tight_layout"; "constrained_layout" ].

(** The renderer as Python gives it: [plt.subplots], [plt.legend] and
    [plt.plot] are plain functions, so a probe answers for the attributes
    of a function object and for nothing else. *)
Definition pyplot : Renderer := {|
  hasattr_subplots := function_hasattr;
  hasattr_legend := function_hasattr;
  hasattr_plot := function_hasattr;
  rc_figure_dpi := VFloat 1000 (-1);
  subplots_accepts := λ fig_kw,
    forallb (λ key, bool_decide (key ∈ figure_options)) (map_to_list fig_kw).*1
|}.

(** A probe on [plt.plot] that answers only for double-underscore names,
    as every probe on a function object does. *)
Definition plot_probe_private `{Renderer} : Prop :=
  ∀ key, hasattr_plot key = true → String.prefix "__" key = true.

(** ** The session object *)

(** The class attributes of [CcfePlot]. *)
Module Cls.
Section Cls.
Context `{Renderer}.

Definition _figure_defaults : gmap string pyval :=
<["figsize" := VNone]> (<["dpi" := rc_figure_dpi]>
(<["sharex" := VBool false]> (<["sharey" := VBool false]> ∅))).

Definition _legend_defaults : gmap string pyval :=
<["loc" := VStr "best"]> (<["fancybox" := VBool true]>
(<["framealpha" := VFloat 8 (-1)]> (<["numpoints" := VInt 1]>
(<["ncol" := VInt 1]> ∅)))).

Definition _plot_defaults : gmap string pyval :=
<["linestyle" := VStr "-"]> ∅.

Definition _other_defaults : gmap string pyval :=
<["showlegend" := VBool true]> ∅.


Definition _line_attributes : list string :=
[ "label"; "linewidth"; "linestyle"; "marker"; "markerfacecolor";
  "markeredgewidth"; "markersize"; "markeredgecolor"; "markevery";
  "alpha"; "color" ].

Definition _uniqueparams : list string :=
[ "color"; "label"; "marker"; "linestyle"; "colorcycle" ].

End Cls.
End Cls.

(** The attributes of an instance.  [default_ax] is assigned by
    [set_default_axis]; [kwargs] is read by several methods and assigned by
    none that [__init__] runs, so either may be missing ([None] here). *)
Record Session := mkSession {
  _legends : list (target * option nat);
  _figure_settings : gmap string pyval;
  _legend_settings : gmap string pyval;
  _plot_settings_default : gmap string pyval;
  _other_defaults : gmap string pyval;
  _fig : nat;
  _axes : list (list Axes);
  _colorcycle : pyval;
  default_ax : option Axes;
  kwargs : option (gmap string pyval)
}.

Record St := mkSt { self : Session; world : Env }.

(** ** State and exceptions *)

(** A method body: it runs on the object and the renderer, and ends with a
    value or an exception; what it changed before raising stays changed. *)
Definition M (A : Type) : Type := St → (exn + A) * St.

Definition ret {A} (a : A) : M A := λ st, (inr a, st).
Definition raise {A} (e : exn) : M A := λ st, (inl e, st).
Definition bind {A B} (m : M A) (k : A → M B) : M B :=
  λ st, match m st with
        | (inr a, st') => k a st'
        | (inl e, st') => (inl e, st')
        end.

Notation "x <- c ;; k" := (bind c (λ x, k))
  (at level 100, c at next level, right associativity).
Notation "c ;; k" := (bind c (λ _, k))
  (at level 100, right associativity).

Definition lift {A} (r : exn + A) : M A :=
  match r with inr a => ret a | inl e => raise e end.
Definition gets {A} (f : Session → A) : M A := λ st, (inr (f (self st)), st).
Definition modify (f : Session → Session) : M unit :=
  λ st, (inr tt, mkSt (f (self st)) (world st)).
Definition env_gets {A} (f : Env → A) : M A := λ st, (inr (f (world st)), st).
Definition env_modify (f : Env → Env) : M unit :=
  λ st, (inr tt, mkSt (self st) (f (world st))).

(** A [for] loop over a list. *)
Fixpoint for_each {A} (l : list A) (body : A → M unit) : M unit :=
  match l with
  | [] => ret tt
  | a :: l' => body a ;; for_each l' body
  end.

(** A [for] loop whose body may [return]: the first value returned ends
    the loop. *)
Fixpoint for_until {A B} (l : list A) (body : A → M (option B)) : M (option B) :=
  match l with
  | [] => ret None
  | a :: l' =>
      r <- body a ;;
      match r with Some b => ret (Some b) | None => for_until l' body end
  end.

(** Renderer and console calls. *)
Definition emit (e : event) : M unit :=
  env_modify (λ w, mkEnv (interactive w) (closed_figs w) (next_fig w)
                         (next_leg w) (trace w ++ [e])).

(** [ax.legend] with the options [kw]: the renderer builds a legend and
    returns it. *)
Definition ax_legend (a : Axes) (kw : gmap string pyval) : M nat :=
  n <- env_gets next_leg ;;
  env_modify (λ w, mkEnv (interactive w) (closed_figs w) (next_fig w)
                         (S n) (trace w ++ [EvLegend a kw n])) ;;
  ret n.

Definition set_legends (d : list (target * option nat)) (s : Session) : Session :=
  mkSession d (_figure_settings s) (_legend_settings s)
            (_plot_settings_default s) (_other_defaults s) (_fig s) (_axes s)
            (_colorcycle s) (default_ax s) (kwargs s).
Definition set_default_ax (a : Axes) (s : Session) : Session :=
  mkSession (_legends s) (_figure_settings s) (_legend_settings s)
            (_plot_settings_default s) (_other_defaults s) (_fig s) (_axes s)
            (_colorcycle s) (Some a) (kwargs s).
Definition set_kwargs (kw : gmap string pyval) (s : Session) : Session :=
  mkSession (_legends s) (_figure_settings s) (_legend_settings s)
            (_plot_settings_default s) (_other_defaults s) (_fig s) (_axes s)
            (_colorcycle s) (default_ax s) (Some kw).
Definition set_colorcycle (v : pyval) (s : Session) : Session :=
  mkSession (_legends s) (_figure_settings s) (_legend_settings s)
            (_plot_settings_default s) (_other_defaults s) (_fig s) (_axes s)
            v (default_ax s) (kwargs s).

(** ** The methods of [CcfePlot] *)

Definition as_ints (l : list pyval) : option (list Z) :=
  mapM (λ v, match v with VInt n => Some n | _ => None end) l.

(** A value met where a drawing surface is expected.  A sequence with an
    element that is not an integer has no counterpart among the targets
    modelled here and is read as an opaque object. *)
Definition to_target (v : pyval) : target :=
  match v with
  | VStr s => TStr s
  | VAxes a => TAxes a
  | VInt n => TInt n
  | VBool b => TInt (Z.b2z b)
  | VTuple l => from_option TTuple TNone (as_ints l)
  | VList l => from_option TList TNone (as_ints l)
  | _ => TNone
  end.

Definition is_str (v : pyval) (s : string) : bool :=
  match v with VStr s' => String.eqb s' s | _ => false end.

Section Methods.
Context `{R : Renderer}.

Definition get_axis (ax : target) : M Axes :=
  match ax with
  | TAxes a => ret a
  | TTuple l | TList l =>
      r <- lift (py_index l 0) ;;
      grid <- gets _axes ;;
      row <- lift (py_index grid r) ;;
      c <- lift (py_index l 1) ;;
      lift (py_index row c)
  | TInt _ => raise NotImplementedError
  | _ => raise ValueError
  end.

(** [self._figure_settings['subplots'][k]], read as the bound of a range. *)
Definition subplots_dim (k : Z) : M Z :=
  fs <- gets _figure_settings ;;
  dims <- lift (from_option inr (inl KeyError) (fs !! "subplots")) ;;
  n <- lift (getitem dims (VInt k)) ;;
  match n with
  | VInt n => ret n
  | VBool b => ret (Z.b2z b)
  | _ => raise TypeError
  end.

(** [self._axes[i,j]]. *)
Definition axes_at (i j : Z) : M Axes :=
  grid <- gets _axes ;;
  row <- lift (py_index grid i) ;;
  lift (py_index row j).

Definition get_axis_index (ax : target) : M (option target) :=
  nrows <- subplots_dim 0 ;;
  for_until (arange nrows) (λ i,
    ncols <- subplots_dim 1 ;;
    for_until (arange ncols) (λ j,
      a <- axes_at i j ;;
      ret (if decide (ax = TAxes a) then Some ax else None))).

Definition set_default_axis (indices : target) : M Axes :=
  match indices with
  | TInt _ => raise NotImplementedError
  | _ =>
      ax <- get_axis indices ;;
      modify (set_default_ax ax) ;;
      emit (EvSca ax) ;;
      ret ax
  end.

Definition _update_legend (indices : target) : M (option nat) :=
  ax <- get_axis indices ;;
  od <- gets _other_defaults ;;
  show <- lift (from_option inr (inl KeyError) (od !! "showlegend")) ;;
  leg <- (if py_truth show
          then (ls <- gets _legend_settings ;;
                n <- ax_legend ax ls ;;
                ret (Some n))
          else ret None) ;;
  match leg with Some n => emit (EvDraggable n) | None => ret tt end ;;
  match indices with
  | TList _ => raise TypeError
  | _ => modify (λ s, set_legends (dict_set indices leg (_legends s)) s)
  end ;;
  ret leg.

Definition update_legends : M (list (target * option nat)) :=
  nrows <- subplots_dim 0 ;;
  for_each (arange nrows) (λ i,
    ncols <- subplots_dim 1 ;;
    for_each (arange ncols) (λ j,
      _update_legend (TTuple [i; j]) ;; ret tt)) ;;
  gets _legends.

Definition redraw : M unit :=
  inter <- env_gets interactive ;;
  if (inter : bool) then
    fig <- gets _fig ;;
    closed <- env_gets closed_figs ;;
    (if bool_decide (fig ∈ closed) then emit (EvShow fig) else ret tt) ;;
    emit (EvDraw fig)
  else
    emit (EvPrint "redraw() is unsupported in non-interactive plotting mode!").

(** The options of one [ax.plot] call: a copy of the session's defaults,
    then every keyword of the call that passes the probe on [plt.plot].
    The keys of a dictionary are distinct, so the order of the loop does
    not show in the result. *)
Definition plot_settings (defaults kw : gmap string pyval) : gmap string pyval :=
  map_fold (λ key value acc,
              if hasattr_plot key then <[key := value]> acc else acc)
           defaults kw.

Definition plot (x : pyval) (args : list pyval) (ax : target)
    (kw : gmap string pyval) : M unit :=
  ax <- (if decide (ax = TStr "default") then
           d <- gets default_ax ;;
           match d with
           | Some a => ret (TAxes a)
           | None => raise AttributeError
           end
         else match ax with
              | TTuple _ | TList _ | TInt _ =>
                  a <- set_default_axis ax ;; ret (TAxes a)
              | _ => ret ax
              end) ;;
  ax_index <- get_axis_index ax ;;
  match ax with
  | TAxes a =>
      emit (EvTickFormat a) ;;
      defaults <- gets _plot_settings_default ;;
      emit (EvPlot a x args (plot_settings defaults kw)) ;;
      _update_legend ax ;;
      inter <- env_gets interactive ;;
      if (inter : bool) then redraw else ret tt
  | _ => raise AttributeError
  end.

(** The call [self.plot(x, *args, **kw)] bound to the signature
    [plot(self, x, *args, ax='default', **kwargs)]. *)
Definition plot_call (x : pyval) (args : list pyval)
    (kw : gmap string pyval) : M unit :=
  if bool_decide (is_Some (kw !! "x") ∨ is_Some (kw !! "self"))
  then raise TypeError
  else plot x args (from_option to_target (TStr "default") (kw !! "ax"))
            (delete "ax" kw).

(** [add_lines], with the [self.plot] it calls as [plot_method]. *)
Definition add_lines_with (plot_method : pyval → list pyval → gmap string pyval → M unit)
    (x y : pyval) (mode : string) (kw : gmap string pyval) : M unit :=
  if decide (lower mode = "dict") then
    keys <- lift (py_iter y) ;;
    for_each keys (λ key,
      let loop_kwargs :=
        (λ v, match getitem v key with inr w => w | inl _ => v end) <$> kw in
      let x_loop := match getitem x key with inr w => w | inl _ => x end in
      y_key <- lift (getitem y key) ;;
      plot_method x_loop [y_key] loop_kwargs)
  else if decide (lower mode = "array") then
    n <- lift (py_len y) ;;
    for_each (arange n) (λ ind,
      let loop_kwargs :=
        (λ v, match v with
              | VStr _ | VTuple _ => v
              | _ => match getitem v (VInt ind) with inr w => w | inl _ => v end
              end) <$> kw in
      let x_loop :=
        match getitem x (VInt ind) with
        | inr row => match py_slice_all row with inr w => w | inl _ => x end
        | inl _ => x
        end in
      y_ind <- lift (getitem y (VInt ind)) ;;
      plot_method x_loop [y_ind] loop_kwargs)
  else
    emit (EvPrint "Error! Incorrect mode specification. Ignoring method call").

Definition add_lines : pyval → pyval → string → gmap string pyval → M unit :=
  add_lines_with plot_call.

(** [self.kwargs]: the attribute must exist to be read. *)
Definition self_kwargs : M (gmap string pyval) :=
  okw <- gets kwargs ;;
  match okw with
  | Some kw => ret kw
  | None => raise AttributeError
  end.

Definition get_axes : M pyval :=
  kw <- self_kwargs ;;
  lift (from_option inr (inl KeyError) (kw !! "ax")).

Definition get_figure : M pyval :=
  kw <- self_kwargs ;;
  lift (from_option inr (inl KeyError) (kw !! "fig")).

Definition autoscale (enable axis tight : pyval) : M unit :=
  ax <- get_axes ;;
  match ax with
  | VAxes a => emit (EvAutoscale a enable axis tight)
  | _ => raise AttributeError
  end ;;
  kw <- self_kwargs ;;
  (if bool_decide (is_Some (kw !! "xlim")) && (is_str axis "x" || is_str axis "both")
   then modify (set_kwargs (delete "xlim" kw)) else ret tt) ;;
  kw <- self_kwargs ;;
  (if bool_decide (is_Some (kw !! "ylim")) && (is_str axis "y" || is_str axis "both")
   then modify (set_kwargs (delete "ylim" kw)) else ret tt) ;;
  redraw.

Definition _delete_uniqueparams : M unit :=
  kw <- self_kwargs ;;
  match kw !! "colorcycle" with
  | Some v => modify (set_colorcycle v)
  | None => ret tt
  end ;;
  for_each Cls._uniqueparams (λ param,
    kw <- self_kwargs ;;
    modify (set_kwargs (delete param kw))).

(** The three buckets [__init__] sorts a keyword option into. *)
Record buckets := mkBuckets {
  b_figure : gmap string pyval;
  b_plot : gmap string pyval;
  b_other : gmap string pyval
}.

Definition sort_kwarg (key : string) (value : pyval) (b : buckets) : buckets :=
  if hasattr_subplots key then
    mkBuckets (<[key := value]> (b_figure b)) (b_plot b) (b_other b)
  else if hasattr_legend key then
    mkBuckets (<[key := value]> (b_figure b)) (b_plot b) (b_other b)
  else if hasattr_plot key then
    mkBuckets (b_figure b) (<[key := value]> (b_plot b)) (b_other b)
  else if bool_decide (is_Some (b_other b !! key)) then
    mkBuckets (b_figure b) (b_plot b) (<[key := value]> (b_other b))
  else b.

(** [plt.subplots(nrows, ncolumns, squeeze=False, **fig_kw)]: the renderer
    opens a figure, unless it rejects the figure options, and fills it with
    a grid of that many surfaces, unless a dimension is not positive. *)
Definition subplots (nrows ncolumns : Z) (fig_kw : gmap string pyval)
    (w : Env) : (exn + (nat * list (list Axes))) * Env :=
  if subplots_accepts fig_kw then
    let fig := next_fig w in
    let w' := mkEnv (interactive w) (closed_figs w) (S fig) (next_leg w)
                    (trace w ++ [EvSubplots fig nrows ncolumns fig_kw]) in
    if decide (0 < nrows ∧ 0 < ncolumns) then
      (inr (fig, (λ i, mkAxes fig i <$> seq 0 (Z.to_nat ncolumns))
                   <$> seq 0 (Z.to_nat nrows)), w')
    else (inl ValueError, w')
  else (inl TypeError, w).

(** [CcfePlot(nrows, ncolumns, sharex, sharey, *args, **kwargs)]. *)
Definition init (nrows ncolumns : Z) (sharex sharey : pyval)
    (args : list pyval) (kw : gmap string pyval) (w : Env)
    : (exn + Session) * Env :=
  match args with
  | _ :: _ => (inl NotImplementedError, w)
  | [] =>
      let b := map_fold sort_kwarg
                 (mkBuckets Cls._figure_defaults Cls._plot_defaults
                            Cls._other_defaults) kw in
      match subplots nrows ncolumns (b_figure b) w with
      | (inl e, w') => (inl e, w')
      | (inr (fig, grid), w') =>
          let s := mkSession [] (<["subplots" := VTuple [VInt nrows; VInt ncolumns]]>
                                   (b_figure b))
                     Cls._legend_defaults (b_plot b) (b_other b) fig grid
                     (VList []) None None in
          match set_default_axis (TList [0; 0]) (mkSt s w') with
          | (inr _, st) => (inr (self st), world st)
          | (inl e, st) => (inl e, world st)
          end
      end
  end.
End Methods.

(** ** Further methods *)

Section More_methods.
Context `{R : Renderer}.

(** [update_plot] hands its keyword options to [self.plot] and nothing
    else: [plot] takes [x] as its one required parameter and [ax] as a
    keyword of its own, so both are taken out of the options. *)
Definition update_plot (kw : gmap string pyval) : M unit :=
  if bool_decide (is_Some (kw !! "self")) then raise TypeError
  else match kw !! "x" with
       | None => raise TypeError
       | Some x =>
           plot x [] (from_option to_target (TStr "default") (kw !! "ax"))
                (delete "x" (delete "ax" kw))
       end.
End More_methods.


Definition env0 : Env := mkEnv false [] 0 0 [].

(** * Vocabulary of the properties *)

(** The grid the renderer hands back for [nrows] by [ncols] surfaces. *)
Definition grid_of (fig nrows ncols : nat) : list (list Axes) :=
  (λ i, mkAxes fig i <$> seq 0 ncols) <$> seq 0 nrows.

(** [self._axes[r][c]] on a grid. *)
Definition grid_at (grid : list (list Axes)) (r c : Z) : exn + Axes :=
  match py_index grid r with
  | inr row => py_index row c
  | inl e => inl e
  end.

(** The buckets after [__init__] has sorted the keyword options. *)
Definition init_buckets `{R : Renderer} (kw : gmap string pyval) : buckets :=
  map_fold sort_kwarg
    (mkBuckets Cls._figure_defaults Cls._plot_defaults Cls._other_defaults) kw.

(** What holds of a session from [__init__] on: the recorded dimensions are
    those of the grid, the legend switch is present, a default surface is
    set. *)
Definition well_formed (nrows ncols : Z) (s : Session) : Prop :=
  0 < nrows ∧ 0 < ncols
  ∧ _figure_settings s !! "subplots" = Some (VTuple [VInt nrows; VInt ncols])
  ∧ _axes s = grid_of (_fig s) (Z.to_nat nrows) (Z.to_nat ncols)
  ∧ is_Some (_other_defaults s !! "showlegend")
  ∧ is_Some (default_ax s).

(** The [ax.plot] calls in a trace: surface, data and options. *)
Definition draw_calls (t : list event)
    : list (Axes * pyval * list pyval * gmap string pyval) :=
  omap (λ e, match e with
             | EvPlot a x args kw => Some (a, x, args, kw)
             | _ => None
             end) t.

Definition with_trace (w : Env) (evs : list event) (legs : nat) : Env :=
  mkEnv (interactive w) (closed_figs w) (next_fig w) (next_leg w + legs)
        (trace w ++ evs).

(** The session [__init__] builds on a positive grid. *)
Definition init_session `{R : Renderer} (nrows ncolumns : Z) (kw : gmap string pyval)
    (w : Env) : Session :=
  let b := init_buckets kw in
  mkSession [] (<["subplots" := VTuple [VInt nrows; VInt ncolumns]]> (b_figure b))
            Cls._legend_defaults (b_plot b) (b_other b) (next_fig w)
            (grid_of (next_fig w) (Z.to_nat nrows) (Z.to_nat ncolumns))
            (VList []) (Some (mkAxes (next_fig w) 0 0)) None.

(** What refreshing a legend and redrawing leave in the trace. *)
Definition legend_made (s : Session) (w : Env) : option nat :=
  match _other_defaults s !! "showlegend" with
  | Some show => if py_truth show then Some (next_leg w) else None
  | None => None
  end.

Definition legend_events (s : Session) (w : Env) (a : Axes) : list event :=
  match legend_made s w with
  | Some n => [EvLegend a (_legend_settings s) n; EvDraggable n]
  | None => []
  end.

Definition redraw_events (s : Session) (w : Env) : list event :=
  if interactive w then
    (if bool_decide (_fig s ∈ closed_figs w) then [EvShow (_fig s)] else [])
    ++ [EvDraw (_fig s)]
  else [EvPrint "redraw() is unsupported in non-interactive plotting mode!"].

Definition legend_state (indices : target) (a : Axes) (st : St) : St :=
  let s := self st in
  let w := world st in
  mkSt (set_legends (dict_set indices (legend_made s w) (_legends s)) s)
       (with_trace w (legend_events s w a)
                   (match legend_made s w with Some _ => 1 | None => 0 end)%nat).

(** The whole effect of [plot] on a surface [a]. *)
Definition plot_events `{R : Renderer} (a : Axes) (x : pyval) (args : list pyval)
    (kw : gmap string pyval) (s : Session) (w : Env) : list event :=
  [EvTickFormat a;
   EvPlot a x args (plot_settings (_plot_settings_default s) kw)]
  ++ legend_events s w a
  ++ (if interactive w then redraw_events s w else []).

Definition plot_state `{R : Renderer} (a : Axes) (x : pyval) (args : list pyval)
    (kw : gmap string pyval) (st : St) : St :=
  let s := self st in
  let w := world st in
  mkSt (set_legends (dict_set (TAxes a) (legend_made s w) (_legends s)) s)
       (with_trace w (plot_events a x args kw s w)
                   (match legend_made s w with Some _ => 1 | None => 0 end)%nat).

(** [self._axes[ax[0]][ax[1]]] for a sequence [ax] of integers. *)
Definition grid_at_seq (grid : list (list Axes)) (l : list Z) : exn + Axes :=
  match py_index l 0 with
  | inr r =>
      match py_index grid r with
      | inr row =>
          match py_index l 1 with
          | inr c => py_index row c
          | inl e => inl e
          end
      | inl e => inl e
      end
  | inl e => inl e
  end.

(** The surface a target stands for, and the session once the target is
    resolved: an index target also becomes the session's default. *)
Definition resolved (t : target) (st : St) : exn + (Axes * St) :=
  if decide (t = TStr "default") then
    match default_ax (self st) with
    | Some a => inr (a, st)
    | None => inl AttributeError
    end
  else
    match t with
    | TAxes a => inr (a, st)
    | TTuple l | TList l =>
        match grid_at_seq (_axes (self st)) l with
        | inr a =>
            inr (a, mkSt (set_default_ax a (self st))
                         (with_trace (world st) [EvSca a] 0))
        | inl e => inl e
        end
    | TInt _ => inl NotImplementedError
    | _ => inl AttributeError
    end.

(** The two halves of [plot]: settling the target, and the rest. *)
Definition plot_target (ax : target) : M target :=
  if decide (ax = TStr "default") then
    d <- gets default_ax ;;
    match d with
    | Some a => ret (TAxes a)
    | None => raise AttributeError
    end
  else match ax with
       | TTuple _ | TList _ | TInt _ =>
           a <- set_default_axis ax ;; ret (TAxes a)
       | _ => ret ax
       end.

Definition plot_body `{R : Renderer} (x : pyval) (args : list pyval) (ax : target)
    (kw : gmap string pyval) : M unit :=
  ax_index <- get_axis_index ax ;;
  match ax with
  | TAxes a =>
      emit (EvTickFormat a) ;;
      defaults <- gets _plot_settings_default ;;
      emit (EvPlot a x args (plot_settings defaults kw)) ;;
      _update_legend ax ;;
      inter <- env_gets interactive ;;
      if (inter : bool) then redraw else ret tt
  | _ => raise AttributeError
  end.

(** A session of one surface, as [CcfePlot()] builds it in a fresh
    process, and one of two rows and two columns. *)
Definition session_1x1 : St :=
  mkSt (@init_session pyplot 1 1 ∅ env0)
       (mkEnv false [] 1 0
              [EvSubplots 0 1 1 (b_figure (@init_buckets pyplot ∅));
               EvSca (mkAxes 0 0 0)]).

Definition session_2x2 : St :=
  mkSt (@init_session pyplot 2 2 ∅ env0)
       (mkEnv false [] 1 0
              [EvSubplots 0 2 2 (b_figure (@init_buckets pyplot ∅));
               EvSca (mkAxes 0 0 0)]).

(** The value of an option for one series: the entry under the series key
    when the value can be subscripted by it, the value itself otherwise. *)
Definition per_series (key v : pyval) : pyval :=
  match getitem v key with inr w => w | inl _ => v end.

(** A plot method that only records the call it receives. *)
Definition record_call (x : pyval) (args : list pyval)
    (kw : gmap string pyval) : M unit :=
  emit (EvPlot (mkAxes 0 0 0) x args kw).

Definition index_key (ij : Z * Z) : target := TTuple [ij.1; ij.2].

(** The indices of a grid, row by row. *)
Definition row_major (nrows ncols : Z) : list (Z * Z) :=
  arange nrows ≫= λ i, pair i <$> arange ncols.

(** One legend update at an index, and a run of them. *)
Definition legend_step (st : St) (ij : Z * Z) : St :=
  legend_state (index_key ij)
    (mkAxes (_fig (self st)) (Z.to_nat ij.1) (Z.to_nat ij.2)) st.

Definition legend_fold (l : list (Z * Z)) (st : St) : St :=
  foldl legend_step st l.

(** The value an insertion-ordered dictionary holds under a key. *)
Fixpoint dict_find {K V} `{EqDecision K} (k : K) (d : list (K * V)) : option V :=
  match d with
  | [] => None
  | (k', v) :: d' => if decide (k = k') then Some v else dict_find k d'
  end.

(** The attributes of a session that only [__init__] writes, apart from
    the registry of legends and the default surface. *)
Definition frame (s : Session) :=
  (_figure_settings s, _legend_settings s, _plot_settings_default s,
   _other_defaults s, _fig s, _axes s, _colorcycle s, kwargs s).

(** A call of one of the methods on a session. *)
Inductive call :=
| CallPlot (x : pyval) (args : list pyval) (ax : target)
           (kw : gmap string pyval)
| CallAddLines (x y : pyval) (mode : string) (kw : gmap string pyval)
| CallUpdatePlot (kw : gmap string pyval)
| CallUpdateLegends
| CallUpdateLegend (indices : target)
| CallSetDefaultAxis (indices : target)
| CallGetAxis (ax : target)
| CallGetAxisIndex (ax : target)
| CallRedraw
| CallAutoscale (enable axis tight : pyval)
| CallGetAxes
| CallGetFigure
| CallDeleteUniqueparams.

(** The state a call leaves, however it ends. *)
Definition run_call `{R : Renderer} (c : call) (st : St) : St :=
  match c with
  | CallPlot x args ax kw => (plot x args ax kw st).2
  | CallAddLines x y mode kw => (add_lines x y mode kw st).2
  | CallUpdatePlot kw => (update_plot kw st).2
  | CallUpdateLegends => (update_legends st).2
  | CallUpdateLegend indices => (_update_legend indices st).2
  | CallSetDefaultAxis indices => (set_default_axis indices st).2
  | CallGetAxis ax => (get_axis ax st).2
  | CallGetAxisIndex ax => (get_axis_index ax st).2
  | CallRedraw => (redraw st).2
  | CallAutoscale enable axis tight => (autoscale enable axis tight st).2
  | CallGetAxes => (get_axes st).2
  | CallGetFigure => (get_figure st).2
  | CallDeleteUniqueparams => (_delete_uniqueparams st).2
  end.

Definition run_calls `{R : Renderer} (cs : list call) (st : St) : St :=
  foldl (λ st c, run_call c st) st cs.

(** A method keeps a property of the session: it holds after the call,
    however the call ends, when it held before. *)
Definition keeps {A} (P : Session → Prop) (m : M A) : Prop :=
  ∀ st, P (self st) → P (self (m st).2).

(** What every call keeps on a session built from [s0]. *)
Definition in_use (nrows ncols : Z) (s0 s : Session) : Prop :=
  well_formed nrows ncols s ∧ frame s = frame s0.

(** Whether a surface is one of the grid of a session with these
    dimensions. *)
Definition in_grid (nrows ncols : Z) (s : Session) (a : Axes) : bool :=
  bool_decide (ax_fig a = _fig s
               ∧ (ax_row a < Z.to_nat nrows)%nat
               ∧ (ax_col a < Z.to_nat ncols)%nat).

(** A sequence of calls used in the examples: a plot on the surface at
    (1, 0), three series at once, a refresh of all legends, an autoscale. *)
Definition some_calls : list call :=
  [ CallPlot (VList [VInt 1; VInt 2]) [] (TTuple [1; 0])
             (<["color" := VStr "red"]> ∅);
    CallAddLines (VList [VInt 0; VInt 1])
                 (VDict [(KStr "a", VList [VInt 1; VInt 2]);
                         (KStr "b", VList [VInt 3; VInt 4])])
                 "dict" (<["label" := VDict [(KStr "a", VStr "A")]]> ∅);
    CallUpdateLegends;
    CallAutoscale (VBool true) (VStr "x") VNone ].


(** The value of an option for the row [ind] in array mode: text and
    tuples as they are, any other value subscripted by the row number when
    that succeeds. *)
Definition per_row (ind : Z) (v : pyval) : pyval :=
  match v with
  | VStr _ | VTuple _ => v
  | _ => per_series (VInt ind) v
  end.

(** The x data of the row [ind] in array mode: a copy of [x[ind]] when
    [x] has such a row that can be sliced, [x] itself otherwise. *)
Definition x_row (ind : Z) (x : pyval) : pyval :=
  match getitem x (VInt ind) with
  | inr row => match py_slice_all row with inr w => w | inl _ => x end
  | inl _ => x
  end.

(** The rows of [y] with their numbers. *)
Definition numbered (rows : list pyval) : list (Z * pyval) :=
  zip (arange (Z.of_nat (length rows))) rows.

(** * Properties *)

(** ** Subscripts *)

Example py_index_last : py_index [10; 20; 30] (-1) = inr 30.
Proof. reflexivity. Qed.

Example lower_mixed : lower "DiCt" = "dict".
Proof. reflexivity. Qed.

Example getitem_str_by_text : getitem (VStr "red") (VStr "a") = inl TypeError.
Proof. reflexivity. Qed.

Lemma py_index_in_range {A} (l : list A) (i : Z) (a : A) :
  0 ≤ i → l !! Z.to_nat i = Some a → py_index l i = inr a.
Proof.
  intros Hi Hl. unfold py_index.
  apply lookup_lt_Some in Hl as Hlt.
  rewrite decide_True by lia. by rewrite Hl.
Qed.

Lemma py_index_out_of_range {A} (l : list A) (i : Z) :
  ¬ (- Z.of_nat (length l) ≤ i < Z.of_nat (length l)) →
  py_index l i = inl IndexError.
Proof.
  intros Hi. unfold py_index.
  rewrite decide_False by lia. by rewrite decide_False by lia.
Qed.

(** A subscript into a list built position by position: in range from
    either end it finds the element, counted from the end when negative. *)
Lemma py_index_tabulate {A} (f : nat → A) (n : nat) (i : Z) :
  py_index (f <$> seq 0 n) i =
    if decide (- Z.of_nat n ≤ i < Z.of_nat n)
    then inr (f (Z.to_nat (i `mod` Z.of_nat n)))
    else inl IndexError.
Proof.
  unfold py_index. rewrite length_fmap, length_seq.
  destruct (decide (0 ≤ i < Z.of_nat n)) as [Hpos|Hpos].
  - rewrite decide_True by lia.
    rewrite list_lookup_fmap, lookup_seq_lt by lia. simpl.
    by rewrite Z.mod_small by lia.
  - destruct (decide (- Z.of_nat n ≤ i < 0)) as [Hneg|Hneg].
    + rewrite decide_True by lia.
      rewrite list_lookup_fmap, lookup_seq_lt by lia. simpl.
      replace (i `mod` Z.of_nat n) with (Z.of_nat n + i); [done|].
      apply Z.mod_unique with (-1); lia.
    + by rewrite decide_False by lia.
Qed.

Lemma grid_at_grid_of (fig nrows ncols : nat) (r c : Z) :
  grid_at (grid_of fig nrows ncols) r c =
    if decide ((- Z.of_nat nrows ≤ r < Z.of_nat nrows)
               ∧ (- Z.of_nat ncols ≤ c < Z.of_nat ncols))
    then inr (mkAxes fig (Z.to_nat (r `mod` Z.of_nat nrows))
                         (Z.to_nat (c `mod` Z.of_nat ncols)))
    else inl IndexError.
Proof.
  unfold grid_at, grid_of.
  rewrite (py_index_tabulate (λ i, mkAxes fig i <$> seq 0 ncols)).
  destruct (decide (- Z.of_nat nrows ≤ r < Z.of_nat nrows)) as [Hr|Hr].
  - rewrite py_index_tabulate.
    destruct (decide (- Z.of_nat ncols ≤ c < Z.of_nat ncols)) as [Hc|Hc].
    + by rewrite decide_True.
    + rewrite decide_False; [done|]. intros [_ ?]. done.
  - rewrite decide_False; [done|]. intros [? _]. done.
Qed.

(** ** Running the methods *)

Ltac unfold_monad :=
  unfold lift, emit, bind, gets, modify, env_gets, env_modify, ret, raise in *.

Section Runs.
Context `{R : Renderer}.

Lemma get_axis_pair (r c : Z) (st : St) :
  get_axis (TTuple [r; c]) st = (grid_at (_axes (self st)) r c, st)
  ∧ get_axis (TList [r; c]) st = (grid_at (_axes (self st)) r c, st).
Proof.
  unfold get_axis, grid_at. unfold_monad.
  change (py_index [r; c] 0) with (inr r : exn + Z).
  change (py_index [r; c] 1) with (inr c : exn + Z).
  simpl.
  destruct (py_index (_axes (self st)) r) as [e|row]; [by split|].
  destruct (py_index row c); by split.
Qed.

Lemma get_axis_int (n : Z) (st : St) :
  get_axis (TInt n) st = (inl NotImplementedError, st).
Proof. reflexivity. Qed.

Lemma set_default_axis_int (n : Z) (st : St) :
  set_default_axis (TInt n) st = (inl NotImplementedError, st).
Proof. reflexivity. Qed.
End Runs.

(** ** Sorting keyword options *)

Section Options.
Context `{R : Renderer}.

(** What [ax.plot] receives under a name: the keyword of the call when
    the probe lets it through, the session's default otherwise. *)
Lemma plot_settings_lookup (defaults kw : gmap string pyval) (key : string) :
  plot_settings defaults kw !! key =
    if hasattr_plot key
    then match kw !! key with Some v => Some v | None => defaults !! key end
    else defaults !! key.
Proof.
  unfold plot_settings. revert key.
  apply (map_fold_weak_ind (λ acc (m : gmap string pyval), ∀ key,
    acc !! key =
      if hasattr_plot key
      then match m !! key with Some v => Some v | None => defaults !! key end
      else defaults !! key)).
  - intros key. rewrite lookup_empty. by destruct (hasattr_plot key).
  - intros i v m acc Hfresh IH key.
    destruct (decide (i = key)) as [->|Hne].
    + destruct (hasattr_plot key) eqn:Hp.
      * by rewrite !lookup_insert_eq.
      * rewrite IH. by rewrite Hp.
    + rewrite (lookup_insert_ne m) by done.
      destruct (hasattr_plot i); [rewrite lookup_insert_ne by done|]; apply IH.
Qed.

Lemma plot_settings_default_applies (defaults kw : gmap string pyval) (key : string) :
  kw !! key = None → plot_settings defaults kw !! key = defaults !! key.
Proof.
  intros Hk. rewrite plot_settings_lookup, Hk. by destruct (hasattr_plot key).
Qed.

Lemma plot_settings_unprobed (defaults kw : gmap string pyval) (key : string) :
  hasattr_plot key = false → plot_settings defaults kw !! key = defaults !! key.
Proof. intros Hk. by rewrite plot_settings_lookup, Hk. Qed.

Lemma init_buckets_showlegend (kw : gmap string pyval) :
  is_Some (b_other (init_buckets kw) !! "showlegend").
Proof.
  unfold init_buckets.
  apply (map_fold_weak_ind (λ b (_ : gmap string pyval),
           is_Some (b_other b !! "showlegend"))).
  - by eexists.
  - intros i v m b _ IH. unfold sort_kwarg.
    repeat (case_match; simpl; try done).
    destruct (decide (i = "showlegend")) as [->|Hne].
    + rewrite lookup_insert_eq. by eexists.
    + by rewrite lookup_insert_ne.
Qed.
End Options.

(** ** Sessions in use *)

Section Session_runs.
Context `{R : Renderer}.

Lemma init_run (nrows ncolumns : Z) (sharex sharey : pyval)
    (kw : gmap string pyval) (w : Env) :
  0 < nrows → 0 < ncolumns →
  subplots_accepts (b_figure (init_buckets kw)) = true →
  init nrows ncolumns sharex sharey [] kw w =
    (inr (init_session nrows ncolumns kw w),
     mkEnv (interactive w) (closed_figs w) (S (next_fig w)) (next_leg w)
           (trace w ++ [EvSubplots (next_fig w) nrows ncolumns
                                   (b_figure (init_buckets kw));
                        EvSca (mkAxes (next_fig w) 0 0)])).
Proof.
  intros Hr Hc Hacc. unfold init, subplots.
  fold (init_buckets kw). rewrite Hacc.
  rewrite decide_True by done.
  fold (grid_of (next_fig w) (Z.to_nat nrows) (Z.to_nat ncolumns)).
  unfold set_default_axis.
  unfold bind at 1.
  rewrite (proj2 (get_axis_pair 0 0 _)). simpl.
  rewrite grid_at_grid_of, decide_True by lia.
  rewrite !Z.mod_0_l by lia. simpl.
  unfold_monad. simpl. unfold init_session.
  by rewrite <- app_assoc.
Qed.

Lemma init_well_formed (nrows ncolumns : Z) (kw : gmap string pyval) (w : Env) :
  0 < nrows → 0 < ncolumns →
  well_formed nrows ncolumns (init_session nrows ncolumns kw w).
Proof.
  intros Hr Hc. unfold well_formed, init_session. simpl.
  split_and!; try done.
  - by rewrite lookup_insert_eq.
  - apply init_buckets_showlegend.
Qed.
End Session_runs.

(** ** One plot call, step by step *)

Lemma arange_elem (i n : Z) : i ∈ arange n → 0 ≤ i < n.
Proof.
  unfold arange. intros (k & -> & Hk)%list_elem_of_fmap.
  apply elem_of_seq in Hk. lia.
Qed.

Lemma for_until_pure {A B} (l : list A) (body : A → M (option B)) (st : St) :
  (∀ a, a ∈ l → ∃ r, body a st = (inr r, st)) →
  ∃ r, for_until l body st = (inr r, st).
Proof.
  induction l as [|a l IH]; intros Hbody; simpl.
  - by eexists.
  - destruct (Hbody a) as [r Hr]; [by left|].
    unfold bind. rewrite Hr. destruct r as [b|].
    + by eexists.
    + apply IH. intros a' Ha'. apply Hbody. by right.
Qed.

Section Plot_runs.
Context `{R : Renderer}.

Lemma subplots_dim_run (nrows ncols : Z) (st : St) :
  well_formed nrows ncols (self st) →
  subplots_dim 0 st = (inr nrows, st) ∧ subplots_dim 1 st = (inr ncols, st).
Proof.
  intros (_ & _ & Hdims & _). unfold subplots_dim. unfold_monad.
  simpl. rewrite Hdims. by split.
Qed.

Lemma axes_at_run (nrows ncols i j : Z) (st : St) :
  well_formed nrows ncols (self st) →
  0 ≤ i < nrows → 0 ≤ j < ncols →
  axes_at i j st =
    (inr (mkAxes (_fig (self st)) (Z.to_nat i) (Z.to_nat j)), st).
Proof.
  intros (_ & _ & _ & Hgrid & _) Hi Hj.
  pose proof (grid_at_grid_of (_fig (self st)) (Z.to_nat nrows)
                (Z.to_nat ncols) i j) as Hat.
  rewrite decide_True, !Z.mod_small in Hat by lia.
  unfold axes_at. unfold_monad. simpl. rewrite Hgrid.
  unfold grid_at in Hat.
  destruct (py_index _ i) as [e|row]; [by inversion Hat|].
  by rewrite Hat.
Qed.

Lemma get_axis_index_run (nrows ncols : Z) (ax : target) (st : St) :
  well_formed nrows ncols (self st) →
  ∃ r, get_axis_index ax st = (inr r, st).
Proof.
  intros Hwf. unfold get_axis_index.
  destruct (subplots_dim_run _ _ _ Hwf) as [H0 H1].
  unfold bind at 1. rewrite H0.
  apply for_until_pure. intros i Hi%arange_elem.
  unfold bind at 1. rewrite H1.
  apply for_until_pure. intros j Hj%arange_elem.
  unfold bind. rewrite (axes_at_run _ _ _ _ _ Hwf Hi Hj). by eexists.
Qed.

Lemma update_legend_run (indices : target) (a : Axes) (st : St) :
  get_axis indices st = (inr a, st) →
  is_Some (_other_defaults (self st) !! "showlegend") →
  (∀ l, indices ≠ TList l) →
  _update_legend indices st =
    (inr (legend_made (self st) (world st)), legend_state indices a st).
Proof.
  intros Hax [show Hshow] Hkey. unfold _update_legend.
  unfold bind at 1. rewrite Hax.
  unfold legend_state, legend_events, legend_made, with_trace.
  destruct st as [s w]. simpl in *. unfold ax_legend. unfold_monad. simpl.
  rewrite Hshow. simpl.
  assert (match indices with TList _ => False | _ => True end) as Hhash.
  { destruct indices as [| | |l| |]; try done. by apply (Hkey l). }
  destruct (py_truth show); simpl.
  - destruct indices; try done; simpl;
      by rewrite <- app_assoc, Nat.add_1_r.
  - destruct indices; try done; simpl;
      by rewrite app_nil_r, Nat.add_0_r; destruct w.
Qed.

Lemma redraw_run (st : St) :
  redraw st =
    (inr tt, mkSt (self st)
                  (with_trace (world st)
                              (redraw_events (self st) (world st)) 0)).
Proof.
  unfold redraw, redraw_events, with_trace. unfold_monad.
  destruct st as [s w]. simpl.
  destruct (interactive w) eqn:Hi; simpl; rewrite ?Nat.add_0_r.
  - destruct (bool_decide (_fig s ∈ closed_figs w)); simpl;
      rewrite ?Hi, <- ?app_assoc; done.
  - by rewrite Hi.
Qed.

Lemma plot_axes_run (nrows ncols : Z) (a : Axes) (x : pyval)
    (args : list pyval) (kw : gmap string pyval) (st : St) :
  well_formed nrows ncols (self st) →
  plot x args (TAxes a) kw st = (inr tt, plot_state a x args kw st).
Proof.
  intros Hwf. unfold plot.
  rewrite decide_False by done.
  unfold bind at 1. unfold ret at 1.
  destruct (get_axis_index_run _ _ (TAxes a) st Hwf) as [r Hr].
  unfold bind at 1. rewrite Hr.
  destruct Hwf as (_ & _ & _ & _ & Hshow & _).
  destruct st as [s w].
  unfold bind at 1. unfold emit at 1, env_modify at 1. simpl.
  unfold bind at 1. unfold gets at 1. simpl.
  unfold bind at 1. unfold emit at 1, env_modify at 1. simpl.
  unfold bind at 1.
  rewrite (update_legend_run (TAxes a) a); [|done|done|done].
  unfold legend_state. simpl.
  unfold bind at 1. unfold env_gets at 1. simpl.
  unfold plot_state, plot_events, with_trace. simpl.
  destruct (interactive w) eqn:Hi.
  - rewrite redraw_run. simpl. unfold with_trace. simpl.
    unfold redraw_events, legend_events, legend_made. simpl. rewrite Hi.
    rewrite Nat.add_0_r, <- !app_assoc. done.
  - unfold ret. unfold legend_events, legend_made. simpl.
    rewrite <- !app_assoc, app_nil_r. done.
Qed.
End Plot_runs.

(** ** Every plot call on a session in use *)

Lemma grid_at_seq_pair (grid : list (list Axes)) (r c : Z) :
  grid_at_seq grid [r; c] = grid_at grid r c.
Proof. reflexivity. Qed.

Lemma well_formed_set_default_ax (nrows ncols : Z) (a : Axes) (s : Session) :
  well_formed nrows ncols s → well_formed nrows ncols (set_default_ax a s).
Proof.
  intros (? & ? & ? & ? & ? & _). unfold well_formed. simpl.
  split_and!; done.
Qed.

Lemma draw_calls_app (t t' : list event) :
  draw_calls (t ++ t') = draw_calls t ++ draw_calls t'.
Proof. apply omap_app. Qed.

Section Plot_total.
Context `{R : Renderer}.

Lemma get_axis_seq (l : list Z) (st : St) :
  get_axis (TTuple l) st = (grid_at_seq (_axes (self st)) l, st)
  ∧ get_axis (TList l) st = (grid_at_seq (_axes (self st)) l, st).
Proof.
  unfold get_axis, grid_at_seq. unfold_monad.
  destruct (py_index l 0) as [e|r]; simpl; [by split|].
  destruct (py_index (_axes (self st)) r) as [e|row]; simpl; [by split|].
  destruct (py_index l 1) as [e|c]; simpl; [by split|].
  destruct (py_index row c); by split.
Qed.

Lemma set_default_axis_seq (t : target) (l : list Z) (st : St) :
  t = TTuple l ∨ t = TList l →
  set_default_axis t st =
    match grid_at_seq (_axes (self st)) l with
    | inr a => (inr a, mkSt (set_default_ax a (self st))
                            (with_trace (world st) [EvSca a] 0))
    | inl e => (inl e, st)
    end.
Proof.
  destruct (get_axis_seq l st) as [Ht Hl].
  intros [-> | ->]; unfold set_default_axis; unfold bind at 1;
    rewrite ?Ht, ?Hl;
    (destruct (grid_at_seq _ l) as [e|a]; [done|]);
    unfold_monad; simpl; unfold with_trace; by rewrite Nat.add_0_r.
Qed.

Lemma plot_split (x : pyval) (args : list pyval) (ax : target)
    (kw : gmap string pyval) :
  plot x args ax kw = (ax' <- plot_target ax ;; plot_body x args ax' kw).
Proof. reflexivity. Qed.

Lemma plot_body_axes (nrows ncols : Z) (a : Axes) (x : pyval)
    (args : list pyval) (kw : gmap string pyval) (st : St) :
  well_formed nrows ncols (self st) →
  plot_body x args (TAxes a) kw st = (inr tt, plot_state a x args kw st).
Proof.
  intros Hwf. rewrite <- (plot_axes_run nrows ncols) by done.
  rewrite plot_split. unfold plot_target.
  by rewrite decide_False.
Qed.

Lemma plot_body_other (nrows ncols : Z) (x : pyval) (args : list pyval)
    (ax : target) (kw : gmap string pyval) (st : St) :
  well_formed nrows ncols (self st) →
  (∀ a, ax ≠ TAxes a) →
  plot_body x args ax kw st = (inl AttributeError, st).
Proof.
  intros Hwf Hax. unfold plot_body.
  destruct (get_axis_index_run _ _ ax st Hwf) as [r Hr].
  unfold bind. rewrite Hr.
  destruct ax; try done. by destruct (Hax a).
Qed.

(** [plot] on a session in use, whatever the target. *)
Lemma plot_run (nrows ncols : Z) (x : pyval) (args : list pyval)
    (t : target) (kw : gmap string pyval) (st : St) :
  well_formed nrows ncols (self st) →
  plot x args t kw st =
    match resolved t st with
    | inr (a, st') => (inr tt, plot_state a x args kw st')
    | inl e => (inl e, st)
    end.
Proof.
  intros Hwf. rewrite plot_split. unfold resolved, plot_target.
  destruct (decide (t = TStr "default")) as [->|Hne].
  - unfold bind at 1. unfold bind at 1. unfold gets at 1.
    destruct (default_ax (self st)) as [a|] eqn:Hd; [|done].
    by apply plot_body_axes with nrows ncols.
  - destruct t as [s|a|l|l|n|].
    + unfold bind at 1. unfold ret at 1.
      by apply plot_body_other with nrows ncols.
    + unfold bind at 1. unfold ret at 1.
      by apply plot_body_axes with nrows ncols.
    + unfold bind at 1. unfold bind at 1.
      rewrite (set_default_axis_seq (TTuple l) l) by (by left).
      destruct (grid_at_seq _ l) as [e|a]; [done|].
      unfold ret at 1.
      apply plot_body_axes with nrows ncols.
      by apply well_formed_set_default_ax.
    + unfold bind at 1. unfold bind at 1.
      rewrite (set_default_axis_seq (TList l) l) by (by right).
      destruct (grid_at_seq _ l) as [e|a]; [done|].
      unfold ret at 1.
      apply plot_body_axes with nrows ncols.
      by apply well_formed_set_default_ax.
    + done.
    + unfold bind at 1. unfold ret at 1.
      by apply plot_body_other with nrows ncols.
Qed.

Lemma plot_state_well_formed (nrows ncols : Z) (a : Axes) (x : pyval)
    (args : list pyval) (kw : gmap string pyval) (st : St) :
  well_formed nrows ncols (self st) →
  well_formed nrows ncols (self (plot_state a x args kw st)).
Proof. done. Qed.

Lemma plot_state_draw_calls (a : Axes) (x : pyval) (args : list pyval)
    (kw : gmap string pyval) (st : St) :
  draw_calls (trace (world (plot_state a x args kw st))) =
    draw_calls (trace (world st))
    ++ [(a, x, args, plot_settings (_plot_settings_default (self st)) kw)].
Proof.
  unfold plot_state, plot_events, with_trace. simpl.
  rewrite draw_calls_app. f_equal. simpl. f_equal.
  rewrite draw_calls_app.
  assert (draw_calls (legend_events (self st) (world st) a) = []) as ->.
  { unfold legend_events. by destruct (legend_made _ _). }
  unfold redraw_events.
  destruct (interactive (world st)); [|done].
  by destruct (bool_decide _).
Qed.
End Plot_total.

Section Plot_frame.
Context `{R : Renderer}.

Lemma resolved_keeps (nrows ncols : Z) (t : target) (st st' : St) (a : Axes) :
  well_formed nrows ncols (self st) →
  resolved t st = inr (a, st') →
  well_formed nrows ncols (self st')
  ∧ _plot_settings_default (self st') = _plot_settings_default (self st)
  ∧ draw_calls (trace (world st')) = draw_calls (trace (world st)).
Proof.
  intros Hwf. unfold resolved.
  destruct (decide (t = TStr "default")) as [_|Hne].
  - destruct (default_ax (self st)); [|done]. by intros [= _ <-].
  - destruct t as [s|a'|l|l|n|]; try done.
    + by intros [= _ <-].
    + destruct (grid_at_seq _ l) as [e|a']; [done|]. intros [= _ <-].
      simpl. split_and!; [by apply well_formed_set_default_ax|done|].
      rewrite draw_calls_app. simpl. by rewrite app_nil_r.
    + destruct (grid_at_seq _ l) as [e|a']; [done|]. intros [= _ <-].
      simpl. split_and!; [by apply well_formed_set_default_ax|done|].
      rewrite draw_calls_app. simpl. by rewrite app_nil_r.
Qed.

(** Whatever [plot] is given and however it ends, the session stays in
    use and its line-plot defaults are what they were. *)
Lemma plot_keeps (nrows ncols : Z) (x : pyval) (args : list pyval)
    (t : target) (kw : gmap string pyval) (st : St) :
  well_formed nrows ncols (self st) →
  well_formed nrows ncols (self (plot x args t kw st).2)
  ∧ _plot_settings_default (self (plot x args t kw st).2)
    = _plot_settings_default (self st).
Proof.
  intros Hwf. rewrite (plot_run nrows ncols) by done.
  destruct (resolved t st) as [e|[a st']] eqn:Hres; [done|].
  destruct (resolved_keeps _ _ _ _ _ _ Hwf Hres) as (Hwf' & Hd & _).
  split; [|done]. by apply (plot_state_well_formed nrows ncols).
Qed.

Lemma plot_default_run (nrows ncols : Z) (a : Axes) (x : pyval)
    (args : list pyval) (kw : gmap string pyval) (st : St) :
  well_formed nrows ncols (self st) →
  default_ax (self st) = Some a →
  plot x args (TStr "default") kw st = (inr tt, plot_state a x args kw st).
Proof.
  intros Hwf Hd. rewrite (plot_run nrows ncols) by done.
  unfold resolved. rewrite decide_True by done. by rewrite Hd.
Qed.
End Plot_frame.

(** A session comes out of [__init__] only without extra positional
    arguments and with positive dimensions, and it is [init_session]. *)
Lemma init_inv `{R : Renderer} (nrows ncolumns : Z) (sharex sharey : pyval)
    (args : list pyval) (kw : gmap string pyval) (w w' : Env) (s : Session) :
  init nrows ncolumns sharex sharey args kw w = (inr s, w') →
  args = [] ∧ 0 < nrows ∧ 0 < ncolumns
  ∧ s = init_session nrows ncolumns kw w.
Proof.
  unfold init, subplots. destruct args; [|done].
  fold (init_buckets kw).
  destruct (subplots_accepts _); [|done].
  destruct (decide (0 < nrows ∧ 0 < ncolumns)) as [[Hr Hc]|]; [|done].
  fold (grid_of (next_fig w) (Z.to_nat nrows) (Z.to_nat ncolumns)).
  rewrite (set_default_axis_seq (TList [0; 0]) [0; 0]) by (by right).
  cbn [self world _axes]. rewrite grid_at_seq_pair, grid_at_grid_of.
  rewrite decide_True, !Z.mod_0_l by lia.
  by intros [= <- _].
Qed.

(** ** The renderer Python provides *)


Lemma session_1x1_init :
  @init pyplot 1 1 (VBool false) (VBool false) [] ∅ env0
  = (inr (self session_1x1), world session_1x1).
Proof. by apply (@init_run pyplot). Qed.

Lemma session_2x2_init :
  @init pyplot 2 2 (VBool false) (VBool false) [] ∅ env0
  = (inr (self session_2x2), world session_2x2).
Proof. by apply (@init_run pyplot). Qed.

Lemma session_1x1_well_formed : well_formed 1 1 (self session_1x1).
Proof. by apply (@init_well_formed pyplot). Qed.

Lemma session_2x2_well_formed : well_formed 2 2 (self session_2x2).
Proof. by apply (@init_well_formed pyplot). Qed.

(** * The claims *)

(** ** Resolving a surface *)




(** C9.  Constructing a session with any extra positional argument raises
    [NotImplementedError] whatever the other arguments are, and so does
    resolving a bare integer, through [get_axis] as through
    [set_default_axis]; in each case the renderer and the session are
    exactly as they were before the call. *)
Theorem unsupported_inputs_raise `{R : Renderer} :
  (∀ (nrows ncolumns : Z) (sharex sharey arg : pyval) (args : list pyval)
     (kw : gmap string pyval) (w : Env),
     init nrows ncolumns sharex sharey (arg :: args) kw w
     = (inl NotImplementedError, w))
  ∧ (∀ (n : Z) (st : St),
       get_axis (TInt n) st = (inl NotImplementedError, st)
       ∧ set_default_axis (TInt n) st = (inl NotImplementedError, st)).
Proof.
  split; [done|]. intros n st.
  split; [apply get_axis_int|apply set_default_axis_int].
Qed.

(** ** Line-plot options *)

(** C10.  A plot call whose target is an index pair, tuple or list, that
    resolves to a surface makes that surface the session's default: the
    call draws on it, and the next plot call that names no target draws on
    it too. *)
Theorem plot_index_target_moves_default `{R : Renderer} (nrows ncols : Z)
    (s : Session) (w : Env) (t : target) (l : list Z) (a : Axes)
    (x1 x2 : pyval) (args1 args2 : list pyval) (kw1 kw2 : gmap string pyval) :
  well_formed nrows ncols s →
  t = TTuple l ∨ t = TList l →
  grid_at_seq (_axes s) l = inr a →
  ∃ st1 st2,
    plot x1 args1 t kw1 (mkSt s w) = (inr tt, st1)
    ∧ default_ax (self st1) = Some a
    ∧ plot x2 args2 (TStr "default") kw2 st1 = (inr tt, st2)
    ∧ draw_calls (trace (world st2)) =
        draw_calls (trace w)
        ++ [(a, x1, args1, plot_settings (_plot_settings_default s) kw1);
            (a, x2, args2, plot_settings (_plot_settings_default s) kw2)].
Proof.
  intros Hwf Ht Hat.
  assert (resolved t (mkSt s w)
          = inr (a, mkSt (set_default_ax a s) (with_trace w [EvSca a] 0)))
    as Hres.
  { unfold resolved. rewrite decide_False by (by destruct Ht as [-> | ->]).
    destruct Ht as [-> | ->]; simpl; by rewrite Hat. }
  eexists _, _. split_and!.
  - rewrite (plot_run nrows ncols) by done. by rewrite Hres.
  - done.
  - apply (plot_default_run nrows ncols); [|done].
    apply (plot_state_well_formed nrows ncols).
    by apply well_formed_set_default_ax.
  - rewrite !plot_state_draw_calls. simpl.
    rewrite draw_calls_app. simpl. by rewrite app_nil_r, <- app_assoc.
Qed.

Lemma plot_index_target_moves_default_witness :
  well_formed 2 2 (self session_2x2)
  ∧ grid_at_seq (_axes (self session_2x2)) [1; 0] = inr (mkAxes 0 1 0)
  ∧ ∃ st1 st2,
      @plot pyplot (VList [VInt 1]) [] (TTuple [1; 0]) ∅ session_2x2
        = (inr tt, st1)
      ∧ default_ax (self st1) = Some (mkAxes 0 1 0)
      ∧ @plot pyplot (VList [VInt 2]) [] (TStr "default") ∅ st1 = (inr tt, st2)
      ∧ draw_calls (trace (world st2)) =
          [(mkAxes 0 1 0, VList [VInt 1], [], <["linestyle" := VStr "-"]> ∅);
           (mkAxes 0 1 0, VList [VInt 2], [], <["linestyle" := VStr "-"]> ∅)].
Proof.
  split; [exact session_2x2_well_formed|]. split; [reflexivity|].
  exact (@plot_index_target_moves_default pyplot 2 2 (self session_2x2)
           (world session_2x2) (TTuple [1; 0]) [1; 0] (mkAxes 0 1 0)
           (VList [VInt 1]) (VList [VInt 2]) [] [] ∅ ∅
           session_2x2_well_formed (or_introl eq_refl) eq_refl).
Defined.

(** C7.  The options of one plot call leave nothing behind.  After a plot
    call with any options [kw1], on any target and however it ends, a plot
    call on the same session hands the renderer the session's line-plot
    defaults overlaid with its own options [kw2] only: under every name
    the second call does not supply, the renderer receives what the
    session's defaults held before the first call, and nothing when they
    held nothing.  So a label, color, marker or line style supplied to
    the first call is not passed again. *)
Theorem plot_options_are_not_carried_over `{R : Renderer} (nrows ncols : Z)
    (s : Session) (w : Env) (t1 : target) (x1 x2 : pyval)
    (args1 args2 : list pyval) (kw1 kw2 : gmap string pyval) :
  well_formed nrows ncols s →
  ∃ a st2 opts,
    let st1 := (plot x1 args1 t1 kw1 (mkSt s w)).2 in
    plot x2 args2 (TStr "default") kw2 st1 = (inr tt, st2)
    ∧ draw_calls (trace (world st2)) =
        draw_calls (trace (world st1)) ++ [(a, x2, args2, opts)]
    ∧ opts = plot_settings (_plot_settings_default s) kw2
    ∧ ∀ key, kw2 !! key = None → opts !! key = _plot_settings_default s !! key.
Proof.
  intros Hwf.
  destruct (plot_keeps nrows ncols x1 args1 t1 kw1 (mkSt s w) Hwf)
    as [Hwf1 Hd1].
  set (st1 := (plot x1 args1 t1 kw1 (mkSt s w)).2) in *.
  destruct Hwf1 as (H1 & H2 & H3 & H4 & H5 & [a Ha]).
  assert (well_formed nrows ncols (self st1)) as Hwf1.
  { unfold well_formed. split_and!; try done; by eexists. }
  exists a, (plot_state a x2 args2 kw2 st1),
         (plot_settings (_plot_settings_default s) kw2).
  cbv zeta. split_and!.
  - by apply (plot_default_run nrows ncols).
  - by rewrite plot_state_draw_calls, Hd1.
  - done.
  - intros key Hkey. by apply plot_settings_default_applies.
Qed.

Lemma plot_options_are_not_carried_over_witness :
  well_formed 1 1 (self session_1x1)
  ∧ ∃ a st2 opts,
      let st1 := (@plot pyplot (VList [VInt 1]) [] (TStr "default")
                    (<["label" := VStr "A"]> ∅) session_1x1).2 in
      @plot pyplot (VList [VInt 2]) [] (TStr "default") ∅ st1 = (inr tt, st2)
      ∧ draw_calls (trace (world st2)) =
          draw_calls (trace (world st1)) ++ [(a, VList [VInt 2], [], opts)]
      ∧ opts = @plot_settings pyplot
                 (_plot_settings_default (self session_1x1)) ∅
      ∧ ∀ key, (∅ : gmap string pyval) !! key = None →
               opts !! key = _plot_settings_default (self session_1x1) !! key.
Proof.
  split; [exact session_1x1_well_formed|].
  exact (@plot_options_are_not_carried_over pyplot 1 1 (self session_1x1)
           (world session_1x1) (TStr "default") (VList [VInt 1])
           (VList [VInt 2]) [] [] (<["label" := VStr "A"]> ∅) ∅
           session_1x1_well_formed).
Defined.

(** The label of a first call does not reach the second: the renderer
    receives no label at all. *)
Example second_plot_has_no_label :
  ∃ st1 st2 opts,
    @plot pyplot (VList [VInt 1]) [] (TStr "default")
      (<["label" := VStr "A"]> ∅) session_1x1 = (inr tt, st1)
    ∧ @plot pyplot (VList [VInt 2]) [] (TStr "default") ∅ st1 = (inr tt, st2)
    ∧ last (draw_calls (trace (world st2)))
      = Some (mkAxes 0 0 0, VList [VInt 2], [], opts)
    ∧ opts !! "label" = None.
Proof. eexists _, _, _. split_and!; vm_compute; reflexivity. Qed.

(** What holds of [plot] in C1: an option of the session's line-plot
    defaults that the call omits reaches the renderer unchanged. *)
Lemma plot_passes_omitted_defaults `{R : Renderer} (nrows ncols : Z) (a : Axes)
    (x : pyval) (args : list pyval) (kw : gmap string pyval) (st : St)
    (key : string) (v : pyval) :
  well_formed nrows ncols (self st) →
  default_ax (self st) = Some a →
  _plot_settings_default (self st) !! key = Some v →
  kw !! key = None →
  ∃ st' opts,
    plot x args (TStr "default") kw st = (inr tt, st')
    ∧ draw_calls (trace (world st'))
      = draw_calls (trace (world st)) ++ [(a, x, args, opts)]
    ∧ opts !! key = Some v.
Proof.
  intros Hwf Hd Hdef Hkw. eexists _, _. split_and!.
  - by apply (plot_default_run nrows ncols).
  - by rewrite plot_state_draw_calls.
  - by rewrite plot_settings_default_applies.
Qed.

(** No name among the line attributes the class lists passes a probe that
    answers for double-underscore names only: the renderer receives the
    session's default under that name, never the value of the call. *)
Lemma line_attribute_is_dropped `{R : Renderer}
    (defaults kw : gmap string pyval) (key : string) :
  plot_probe_private →
  key ∈ Cls._line_attributes →
  plot_settings defaults kw !! key = defaults !! key.
Proof.
  intros Hprobe Hkey. apply plot_settings_unprobed.
  destruct (hasattr_plot key) eqn:Hp; [|done].
  apply Hprobe in Hp. unfold Cls._line_attributes in Hkey.
  repeat (apply elem_of_cons in Hkey as [->|Hkey]; [discriminate Hp|]).
  by apply elem_of_nil in Hkey.
Qed.

(** C1 (what the code does at the failing input).  On a fresh session,
    [plot([1, 2, 3], linestyle='--')] succeeds and the one [ax.plot] call
    it makes receives [linestyle='-'], the session default, and not the
    value supplied with the call. *)
Theorem plot_drops_supplied_linestyle :
  @init pyplot 1 1 (VBool false) (VBool false) [] ∅ env0
    = (inr (self session_1x1), world session_1x1)
  ∧ ∃ st,
      @plot pyplot (VList [VInt 1; VInt 2; VInt 3]) [] (TStr "default")
        (<["linestyle" := VStr "--"]> ∅) session_1x1 = (inr tt, st)
      ∧ draw_calls (trace (world st))
        = [(mkAxes 0 0 0, VList [VInt 1; VInt 2; VInt 3], [],
            <["linestyle" := VStr "-"]> ∅)].
Proof.
  split; [exact session_1x1_init|].
  eexists. split; vm_compute; reflexivity.
Qed.



(** ** Plotting many series *)

Lemma dict_get_elem {V} (d : list (pykey * V)) (k : pykey) (v : V) :
  NoDup d.*1 → (k, v) ∈ d → dict_get k d = Some v.
Proof.
  induction d as [|[k' v'] d IH]; intros Hnd Hin; [by apply elem_of_nil in Hin|].
  simpl in *. apply NoDup_cons in Hnd as [Hk' Hnd].
  apply elem_of_cons in Hin as [[= -> ->]|Hin].
  - by rewrite decide_True.
  - rewrite decide_False; [by apply IH|].
    intros ->. apply Hk'. apply list_elem_of_fmap. by exists (k', v).
Qed.

Lemma getitem_dict_key (d : list (pykey * pyval)) (k : pykey) :
  getitem (VDict d) (key_val k)
  = from_option inr (inl KeyError) (dict_get k d).
Proof. by destruct k. Qed.

(** C5.  In dict mode [add_lines] calls the plot method once per key of
    [y], in the order of [y], with that series' data; every option of the
    call is handed on under its own name, and its value for the series is
    the entry under the series key when the option value can be
    subscripted by that key, and the option value unchanged otherwise;
    [x] is treated the same way. *)
Theorem add_lines_dict_resolves_per_series
    (plot_method : pyval → list pyval → gmap string pyval → M unit)
    (x : pyval) (d : list (pykey * pyval)) (mode : string)
    (kw : gmap string pyval) (st : St) :
  lower mode = "dict" →
  NoDup d.*1 →
  add_lines_with plot_method x (VDict d) mode kw st
  = for_each d (λ series,
      plot_method (per_series (key_val series.1) x) [series.2]
                  (per_series (key_val series.1) <$> kw)) st
  ∧ (∀ key name v, kw !! name = Some v →
       (per_series key <$> kw) !! name = Some (per_series key v))
  ∧ (∀ key name, kw !! name = None → (per_series key <$> kw) !! name = None)
  ∧ (∀ key v w, getitem v key = inr w → per_series key v = w)
  ∧ (∀ key v e, getitem v key = inl e → per_series key v = v).
Proof.
  intros Hmode Hnd. split_and!.
  - unfold add_lines_with. rewrite decide_True by done.
    simpl. unfold bind at 1. unfold lift at 1, ret at 1.
    assert (∀ l st', l ⊆ d →
      for_each (key_val ∘ fst <$> l) (λ key,
        let loop_kwargs :=
          (λ v, match getitem v key with inr w => w | inl _ => v end) <$> kw in
        let x_loop := match getitem x key with inr w => w | inl _ => x end in
        y_key <- lift (getitem (VDict d) key) ;;
        plot_method x_loop [y_key] loop_kwargs) st'
      = for_each l (λ series,
          plot_method (per_series (key_val series.1) x) [series.2]
                      (per_series (key_val series.1) <$> kw)) st') as Hloop.
    { induction l as [|[k v] l IH]; intros st' Hsub; [done|].
      rewrite fmap_cons.
      change ((key_val ∘ fst) (k, v)) with (key_val k).
      cbn [for_each]. unfold bind at 1 3. cbv zeta. unfold bind at 1.
      rewrite getitem_dict_key, (dict_get_elem d k v); [|done|].
      - cbn [from_option lift ret fst snd].
        fold (per_series (key_val k) x). fold (per_series (key_val k)).
        unfold bind at 1.
        destruct (plot_method _ _ _ st') as [[e|[]] st'']; [done|].
        apply (IH st''). intros kv Hkv. apply Hsub. by right.
      - apply Hsub. by left. }
    by apply Hloop.
  - intros key name v Hv. by rewrite lookup_fmap, Hv.
  - intros key name Hv. by rewrite lookup_fmap, Hv.
  - intros key v w Hw. unfold per_series. by rewrite Hw.
  - intros key v e He. unfold per_series. by rewrite He.
Qed.

(** The example of the claim: with [color={"a": "red", "b": "blue"}] the
    call for series "a" receives red and the call for "b" receives blue. *)
Lemma add_lines_dict_resolves_per_series_witness :
  lower "dict" = "dict"
  ∧ NoDup [KStr "a"; KStr "b"]
  ∧ add_lines_with record_call (VList [VInt 0; VInt 1; VInt 2])
      (VDict [(KStr "a", VList [VInt 1; VInt 2; VInt 3]);
              (KStr "b", VList [VInt 4; VInt 5; VInt 6])])
      "dict"
      (<["color" := VDict [(KStr "a", VStr "red"); (KStr "b", VStr "blue")]]> ∅)
      session_1x1
    = (record_call (VList [VInt 0; VInt 1; VInt 2])
                   [VList [VInt 1; VInt 2; VInt 3]]
                   (<["color" := VStr "red"]> ∅) ;;
       record_call (VList [VInt 0; VInt 1; VInt 2])
                   [VList [VInt 4; VInt 5; VInt 6]]
                   (<["color" := VStr "blue"]> ∅) ;;
       ret tt) session_1x1.
Proof.
  assert (NoDup [KStr "a"; KStr "b"]) as Hnd.
  { apply NoDup_cons. split; [by intros ?%list_elem_of_singleton|].
    apply NoDup_singleton. }
  split; [reflexivity|]. split; [exact Hnd|].
  exact (proj1 (add_lines_dict_resolves_per_series record_call
           (VList [VInt 0; VInt 1; VInt 2])
           [(KStr "a", VList [VInt 1; VInt 2; VInt 3]);
            (KStr "b", VList [VInt 4; VInt 5; VInt 6])]
           "dict"
           (<["color" := VDict [(KStr "a", VStr "red"); (KStr "b", VStr "blue")]]> ∅)
           session_1x1 eq_refl Hnd)).
Defined.

(** With the scalar [color="red"] both calls receive red. *)
Example add_lines_dict_broadcasts_scalar :
  add_lines_with record_call (VList [VInt 0; VInt 1; VInt 2])
    (VDict [(KStr "a", VList [VInt 1; VInt 2; VInt 3]);
            (KStr "b", VList [VInt 4; VInt 5; VInt 6])])
    "dict" (<["color" := VStr "red"]> ∅) session_1x1
  = (record_call (VList [VInt 0; VInt 1; VInt 2])
                 [VList [VInt 1; VInt 2; VInt 3]] (<["color" := VStr "red"]> ∅) ;;
     record_call (VList [VInt 0; VInt 1; VInt 2])
                 [VList [VInt 4; VInt 5; VInt 6]] (<["color" := VStr "red"]> ∅) ;;
     ret tt) session_1x1.
Proof. vm_compute. reflexivity. Qed.

(** C8.  With a mode that is neither 'dict' nor 'array' once lowered,
    [add_lines] returns normally, leaves the session as it was, makes no
    call into the renderer and prints one line. *)
Theorem add_lines_unknown_mode `{R : Renderer} (x y : pyval) (mode : string)
    (kw : gmap string pyval) (st : St) :
  lower mode ≠ "dict" →
  lower mode ≠ "array" →
  ∃ w',
    add_lines x y mode kw st = (inr tt, mkSt (self st) w')
    ∧ trace w' = trace (world st)
                 ++ [EvPrint "Error! Incorrect mode specification. Ignoring method call"]
    ∧ draw_calls (trace w') = draw_calls (trace (world st))
    ∧ (interactive w', closed_figs w', next_fig w', next_leg w')
      = (interactive (world st), closed_figs (world st), next_fig (world st),
         next_leg (world st)).
Proof.
  intros Hdict Harray. unfold add_lines, add_lines_with.
  rewrite !decide_False by done.
  eexists. split_and!; [reflexivity|done| |done].
  simpl. rewrite draw_calls_app. simpl. by rewrite app_nil_r.
Qed.

Lemma add_lines_unknown_mode_witness :
  lower "bogus" ≠ "dict" ∧ lower "bogus" ≠ "array"
  ∧ ∃ w',
      @add_lines pyplot (VList [VInt 0; VInt 1]) (VDict [(KStr "a", VList [VInt 1; VInt 2])])
        "bogus" ∅ session_1x1 = (inr tt, mkSt (self session_1x1) w')
      ∧ trace w' = trace (world session_1x1)
                   ++ [EvPrint "Error! Incorrect mode specification. Ignoring method call"]
      ∧ draw_calls (trace w') = draw_calls (trace (world session_1x1))
      ∧ (interactive w', closed_figs w', next_fig w', next_leg w')
        = (interactive (world session_1x1), closed_figs (world session_1x1),
           next_fig (world session_1x1), next_leg (world session_1x1)).
Proof.
  assert (lower "bogus" ≠ "dict") as H1 by discriminate.
  assert (lower "bogus" ≠ "array") as H2 by discriminate.
  split; [exact H1|]. split; [exact H2|].
  exact (@add_lines_unknown_mode pyplot (VList [VInt 0; VInt 1])
           (VDict [(KStr "a", VList [VInt 1; VInt 2])]) "bogus" ∅
           session_1x1 H1 H2).
Defined.

(** ** Autoscaling *)

Section Autoscale.
Context `{R : Renderer}.

(** A session that [__init__] returns has no [kwargs] attribute. *)
Lemma init_no_kwargs (nrows ncolumns : Z) (sharex sharey : pyval)
    (args : list pyval) (kw : gmap string pyval) (w w' : Env) (s : Session) :
  init nrows ncolumns sharex sharey args kw w = (inr s, w') →
  kwargs s = None.
Proof. by intros (_ & _ & _ & ->)%init_inv. Qed.

(** [plot] neither creates nor changes it. *)
Lemma plot_keeps_kwargs (nrows ncols : Z) (x : pyval) (args : list pyval)
    (t : target) (kw : gmap string pyval) (st : St) :
  well_formed nrows ncols (self st) →
  kwargs (self (plot x args t kw st).2) = kwargs (self st).
Proof.
  intros Hwf. rewrite (plot_run nrows ncols) by done.
  unfold resolved.
  destruct (decide (t = TStr "default")) as [_|_].
  - by destruct (default_ax (self st)).
  - destruct t as [s|a|l|l|n|]; try done;
      by destruct (grid_at_seq _ l).
Qed.

(** [_delete_uniqueparams] reads it first, and [plot] never calls it. *)
Lemma delete_uniqueparams_without_kwargs (st : St) :
  kwargs (self st) = None →
  _delete_uniqueparams st = (inl AttributeError, st).
Proof.
  intros Hkw. unfold _delete_uniqueparams, self_kwargs.
  unfold bind, gets. by rewrite Hkw.
Qed.

Lemma autoscale_without_kwargs (enable axis tight : pyval) (st : St) :
  kwargs (self st) = None →
  autoscale enable axis tight st = (inl AttributeError, st).
Proof.
  intros Hkw. unfold autoscale, get_axes, self_kwargs.
  unfold bind, gets. by rewrite Hkw.
Qed.
End Autoscale.

(** Where a [kwargs] store holding a surface under 'ax' and a limit under
    'xlim' has been attached to the session from outside, [autoscale] on
    'x' asks the renderer to autoscale, drops the stored x-limit, keeps
    the rest of the store and redraws. *)
Lemma autoscale_clears_stored_xlim (enable tight : pyval) (a : Axes)
    (kw : gmap string pyval) (s : Session) (w : Env) :
  kwargs s = Some kw →
  kw !! "ax" = Some (VAxes a) →
  is_Some (kw !! "xlim") →
  autoscale enable (VStr "x") tight (mkSt s w)
  = (inr tt,
     mkSt (set_kwargs (delete "xlim" kw) s)
          (with_trace w (EvAutoscale a enable (VStr "x") tight
                         :: redraw_events s w) 0)).
Proof.
  intros Hkw Hax Hxlim. unfold autoscale, get_axes, self_kwargs.
  unfold_monad. simpl. rewrite Hkw, Hax. simpl. rewrite Hkw. simpl.
  rewrite bool_decide_eq_true_2 by done. simpl.
  rewrite andb_false_r.
  rewrite redraw_run. simpl. unfold with_trace, redraw_events. simpl.
  by rewrite <- app_assoc, !Nat.add_0_r.
Qed.

(** C4 (what the code does).  On every session that [__init__] returns,
    [autoscale] raises [AttributeError] at its first statement, for every
    choice of arguments: the session has no [kwargs] store to read the
    surface from.  No limit is cleared, the renderer is not called and
    nothing is redrawn. *)
Theorem autoscale_on_constructed_session_raises `{R : Renderer}
    (nrows ncolumns : Z) (sharex sharey : pyval) (args : list pyval)
    (kw : gmap string pyval) (w w' : Env) (s : Session)
    (enable axis tight : pyval) (w'' : Env) :
  init nrows ncolumns sharex sharey args kw w = (inr s, w') →
  autoscale enable axis tight (mkSt s w'') = (inl AttributeError, mkSt s w'').
Proof.
  intros Hinit. apply autoscale_without_kwargs.
  by apply init_no_kwargs in Hinit.
Qed.

Lemma autoscale_on_constructed_session_raises_witness :
  @init pyplot 1 1 (VBool false) (VBool false) [] ∅ env0
    = (inr (self session_1x1), world session_1x1)
  ∧ autoscale (VBool true) (VStr "x") VNone
      (mkSt (self session_1x1) (world session_1x1))
    = (inl AttributeError, mkSt (self session_1x1) (world session_1x1)).
Proof.
  split; [exact session_1x1_init|].
  exact (@autoscale_on_constructed_session_raises pyplot 1 1 (VBool false)
           (VBool false) [] ∅ env0 (world session_1x1) (self session_1x1)
           (VBool true) (VStr "x") VNone (world session_1x1)
           session_1x1_init).
Defined.

(** ** The legend registry *)

Global Instance index_key_inj : Inj (=) (=) index_key.
Proof. intros [i j] [i' j'] [= -> ->]. done. Qed.

Lemma arange_NoDup (n : Z) : NoDup (arange n).
Proof. apply (NoDup_fmap_2 _), NoDup_seq. Qed.

Lemma arange_length (n : Z) : length (arange n) = Z.to_nat n.
Proof. unfold arange. by rewrite length_fmap, length_seq. Qed.

Lemma row_major_NoDup (nrows ncols : Z) : NoDup (row_major nrows ncols).
Proof.
  apply NoDup_bind.
  - intros i i' [a b] _ _ (j & [= -> ->] & _)%list_elem_of_fmap
      (j' & [= -> _] & _)%list_elem_of_fmap. done.
  - intros i _. apply (NoDup_fmap_2 _), arange_NoDup.
  - apply arange_NoDup.
Qed.

Lemma row_major_length (nrows ncols : Z) :
  length (row_major nrows ncols) = (Z.to_nat nrows * Z.to_nat ncols)%nat.
Proof.
  unfold row_major. rewrite <- (arange_length nrows).
  induction (arange nrows) as [|i l IH]; [done|].
  rewrite bind_cons, length_app, length_fmap, arange_length, IH. simpl. lia.
Qed.

Lemma row_major_elem (nrows ncols i j : Z) :
  (i, j) ∈ row_major nrows ncols ↔ (0 ≤ i < nrows ∧ 0 ≤ j < ncols).
Proof.
  unfold row_major. rewrite list_elem_of_bind. split.
  - intros (i' & (j' & [= -> ->] & Hj)%list_elem_of_fmap & Hi).
    split; by apply arange_elem.
  - intros [Hi Hj]. exists i. split.
    + apply list_elem_of_fmap. exists j. split; [done|].
      unfold arange. apply list_elem_of_fmap. exists (Z.to_nat j).
      split; [lia|]. apply elem_of_seq. lia.
    + unfold arange. apply list_elem_of_fmap. exists (Z.to_nat i).
      split; [lia|]. apply elem_of_seq. lia.
Qed.

Lemma dict_set_fresh {K V} `{EqDecision K} (k : K) (v : V) (d : list (K * V)) :
  k ∉ d.*1 → dict_set k v d = d ++ [(k, v)].
Proof.
  induction d as [|[k' v'] d IH]; intros Hk; [done|].
  simpl in *. apply not_elem_of_cons in Hk as [Hne Hk].
  rewrite decide_False by done. by rewrite IH.
Qed.

Lemma legend_step_well_formed (nrows ncols : Z) (st : St) (ij : Z * Z) :
  well_formed nrows ncols (self st) →
  well_formed nrows ncols (self (legend_step st ij)).
Proof. done. Qed.

Lemma legend_fold_well_formed (nrows ncols : Z) (l : list (Z * Z)) (st : St) :
  well_formed nrows ncols (self st) →
  well_formed nrows ncols (self (legend_fold l st)).
Proof.
  revert st. induction l as [|ij l IH]; intros st Hwf; [done|].
  apply IH. by apply legend_step_well_formed.
Qed.

(** The keys of the registry after a run of updates at fresh indices: the
    keys it had, then the indices in the order of the run. *)
Lemma legend_fold_keys (l : list (Z * Z)) (st : St) :
  NoDup l →
  (∀ ij, ij ∈ l → index_key ij ∉ (_legends (self st)).*1) →
  (_legends (self (legend_fold l st))).*1
  = (_legends (self st)).*1 ++ (index_key <$> l).
Proof.
  revert st. induction l as [|ij l IH]; intros st Hnd Hfresh.
  - simpl. by rewrite app_nil_r.
  - apply NoDup_cons in Hnd as [Hij Hnd].
    assert ((_legends (self (legend_step st ij))).*1
            = (_legends (self st)).*1 ++ [index_key ij]) as Hstep.
    { simpl. rewrite dict_set_fresh by (apply Hfresh; by left).
      by rewrite fmap_app. }
    change (legend_fold (ij :: l) st) with (legend_fold l (legend_step st ij)).
    rewrite IH; [|done|].
    + rewrite Hstep, fmap_cons, <- app_assoc. done.
    + intros ij' Hij'. rewrite Hstep, not_elem_of_app. split.
      * apply Hfresh. by right.
      * intros ->%list_elem_of_singleton%(inj index_key). done.
Qed.

Section Legends.
Context `{R : Renderer}.

Lemma update_legend_index_run (nrows ncols i j : Z) (st : St) :
  well_formed nrows ncols (self st) →
  0 ≤ i < nrows → 0 ≤ j < ncols →
  _update_legend (TTuple [i; j]) st
  = (inr (legend_made (self st) (world st)), legend_step st (i, j)).
Proof.
  intros Hwf Hi Hj.
  apply (update_legend_run (TTuple [i; j])
           (mkAxes (_fig (self st)) (Z.to_nat i) (Z.to_nat j)) st);
    [|by destruct Hwf as (_ & _ & _ & _ & ? & _)|done].
  rewrite (proj1 (get_axis_pair i j st)).
  destruct Hwf as (_ & _ & _ & -> & _).
  rewrite grid_at_grid_of, decide_True, !Z.mod_small by lia. done.
Qed.

Lemma update_legends_row (nrows ncols i : Z) (l : list Z) (st : St) :
  well_formed nrows ncols (self st) →
  0 ≤ i < nrows → (∀ j, j ∈ l → 0 ≤ j < ncols) →
  for_each l (λ j, _update_legend (TTuple [i; j]) ;; ret tt) st
  = (inr tt, legend_fold (pair i <$> l) st).
Proof.
  intros Hwf Hi. revert st Hwf.
  induction l as [|j l IH]; intros st Hwf Hl; [done|].
  cbn [for_each]. unfold bind at 1. unfold bind at 1.
  rewrite (update_legend_index_run nrows ncols) by (try done; apply Hl; by left).
  unfold ret at 1.
  rewrite IH; [done|by apply legend_step_well_formed|].
  intros j' Hj'. apply Hl. by right.
Qed.

Lemma update_legends_rows (nrows ncols : Z) (l : list Z) (st : St) :
  well_formed nrows ncols (self st) →
  (∀ i, i ∈ l → 0 ≤ i < nrows) →
  for_each l (λ i,
    ncols' <- subplots_dim 1 ;;
    for_each (arange ncols') (λ j,
      _update_legend (TTuple [i; j]) ;; ret tt)) st
  = (inr tt, legend_fold (l ≫= λ i, pair i <$> arange ncols) st).
Proof.
  revert st. induction l as [|i l IH]; intros st Hwf Hl; [done|].
  cbn [for_each]. unfold bind at 1. unfold bind at 1.
  rewrite (proj2 (subplots_dim_run nrows ncols st Hwf)).
  rewrite (update_legends_row nrows ncols); [|done|apply Hl; by left|].
  - rewrite IH.
    + rewrite bind_cons. unfold legend_fold. by rewrite foldl_app.
    + by apply legend_fold_well_formed.
    + intros i' Hi'. apply Hl. by right.
  - intros j Hj. by apply arange_elem.
Qed.

(** [update_legends] on a session in use: one legend update per index of
    the grid, row by row, then the registry is returned. *)
Lemma update_legends_run (nrows ncols : Z) (st : St) :
  well_formed nrows ncols (self st) →
  update_legends st
  = (inr (_legends (self (legend_fold (row_major nrows ncols) st))),
     legend_fold (row_major nrows ncols) st).
Proof.
  intros Hwf. unfold update_legends.
  unfold bind at 1. rewrite (proj1 (subplots_dim_run nrows ncols st Hwf)).
  unfold bind at 1.
  rewrite (update_legends_rows nrows ncols); [done|done|].
  intros i Hi. by apply arange_elem.
Qed.

(** What holds of [update_legends] in C6: when the registry holds no
    index key yet, the mapping returned keeps the entries it had and
    gains one entry per surface, keyed by grid index, in row-major
    order.  On a new session these rows x columns entries are all. *)
Lemma update_legends_adds_grid_indices (nrows ncols : Z) (st : St) :
  well_formed nrows ncols (self st) →
  (∀ ij, index_key ij ∉ (_legends (self st)).*1) →
  ∃ legends st',
    update_legends st = (inr legends, st')
    ∧ legends.*1
      = (_legends (self st)).*1 ++ (index_key <$> row_major nrows ncols)
    ∧ length legends
      = (length (_legends (self st)) + Z.to_nat nrows * Z.to_nat ncols)%nat.
Proof.
  intros Hwf Hfresh. eexists _, _. split; [by apply update_legends_run|].
  assert ((_legends (self (legend_fold (row_major nrows ncols) st))).*1
          = (_legends (self st)).*1 ++ (index_key <$> row_major nrows ncols))
    as Hkeys.
  { apply legend_fold_keys; [apply row_major_NoDup|]. intros ij _. apply Hfresh. }
  split; [done|].
  rewrite <- (length_fmap fst), Hkeys, length_app, !length_fmap.
  by rewrite row_major_length.
Qed.
End Legends.

(** C6 (what the code does at the failing input).  On a new session of one
    surface, after one plot call, [update_legends] returns a mapping of two
    entries for the one surface: the entry [plot] filed under the surface
    itself, and the entry under the grid index (0, 0). *)
Theorem update_legends_after_plot_has_extra_entry :
  @init pyplot 1 1 (VBool false) (VBool false) [] ∅ env0
    = (inr (self session_1x1), world session_1x1)
  ∧ ∃ st1 st2,
      @plot pyplot (VList [VInt 1; VInt 2; VInt 3]) [] (TStr "default") ∅
        session_1x1 = (inr tt, st1)
      ∧ update_legends st1
        = (inr [(TAxes (mkAxes 0 0 0), Some 0%nat);
                (TTuple [0; 0], Some 1%nat)], st2)
      ∧ length (_legends (self st2)) = 2%nat.
Proof.
  split; [exact session_1x1_init|].
  eexists _, _. split_and!; vm_compute; reflexivity.
Qed.

(** * Further properties *)

(** ** What every call keeps *)

Lemma keeps_ret {A} (P : Session → Prop) (a : A) : keeps P (ret a).
Proof. by intros st. Qed.

Lemma keeps_raise {A} (P : Session → Prop) (e : exn) : keeps P (@raise A e).
Proof. by intros st. Qed.

Lemma keeps_lift {A} (P : Session → Prop) (r : exn + A) : keeps P (lift r).
Proof. intros st. by destruct r. Qed.

Lemma keeps_gets {A} (P : Session → Prop) (f : Session → A) : keeps P (gets f).
Proof. by intros st. Qed.

Lemma keeps_env_gets {A} (P : Session → Prop) (f : Env → A) :
  keeps P (env_gets f).
Proof. by intros st. Qed.

Lemma keeps_env_modify (P : Session → Prop) (f : Env → Env) :
  keeps P (env_modify f).
Proof. by intros st. Qed.

Lemma keeps_emit (P : Session → Prop) (e : event) : keeps P (emit e).
Proof. by intros st. Qed.

Lemma keeps_modify (P : Session → Prop) (f : Session → Session) :
  (∀ s, P s → P (f s)) → keeps P (modify f).
Proof. intros Hf st. apply Hf. Qed.

Lemma keeps_bind {A B} (P : Session → Prop) (m : M A) (k : A → M B) :
  keeps P m → (∀ a, keeps P (k a)) → keeps P (bind m k).
Proof.
  intros Hm Hk st HP. unfold bind.
  specialize (Hm st HP). destruct (m st) as [[e|a] st']; [done|].
  by apply Hk.
Qed.

Lemma keeps_for_each {A} (P : Session → Prop) (l : list A) (body : A → M unit) :
  (∀ a, keeps P (body a)) → keeps P (for_each l body).
Proof.
  intros Hbody. induction l as [|a l IH]; [apply keeps_ret|].
  apply keeps_bind; [apply Hbody|]. by intros _.
Qed.

Lemma keeps_for_until {A B} (P : Session → Prop) (l : list A)
    (body : A → M (option B)) :
  (∀ a, keeps P (body a)) → keeps P (for_until l body).
Proof.
  intros Hbody. induction l as [|a l IH]; [apply keeps_ret|].
  apply keeps_bind; [apply Hbody|]. intros [b|]; [apply keeps_ret|done].
Qed.

Lemma keeps_ax_legend (P : Session → Prop) (a : Axes) (kw : gmap string pyval) :
  keeps P (ax_legend a kw).
Proof. by intros st. Qed.

Ltac keeps_step :=
  first
    [ assumption
    | simple apply keeps_ret | simple apply keeps_raise
    | simple apply keeps_lift | simple apply keeps_gets
    | simple apply keeps_env_gets | simple apply keeps_env_modify
    | simple apply keeps_emit | simple apply keeps_ax_legend
    | simple apply keeps_bind; [|intros ?]
    | simple apply keeps_for_each; intros ?
    | simple apply keeps_for_until; intros ?
    | match goal with
      | |- keeps _ (match ?x with _ => _ end) => destruct x
      | |- keeps _ (if ?b then _ else _) => destruct b
      end ].

Ltac keeps_steps := repeat keeps_step.

Section Keeps.
Context `{R : Renderer}.
Context (P : Session → Prop).
Context (P_default : ∀ a s, P s → P (set_default_ax a s)).
Context (P_legend : ∀ k v s, P s → P (set_legends (dict_set k v (_legends s)) s)).

Lemma get_axis_keeps (ax : target) : keeps P (get_axis ax).
Proof. unfold get_axis. keeps_steps. Qed.

Lemma get_axis_index_keeps (ax : target) : keeps P (get_axis_index ax).
Proof. unfold get_axis_index, subplots_dim, axes_at. keeps_steps. Qed.

Lemma set_default_axis_keeps (indices : target) :
  keeps P (set_default_axis indices).
Proof.
  unfold set_default_axis.
  destruct indices; keeps_steps; try apply get_axis_keeps;
    apply keeps_modify; intros ?; apply P_default.
Qed.

Lemma update_legend_keeps (indices : target) : keeps P (_update_legend indices).
Proof.
  unfold _update_legend. keeps_steps; try apply get_axis_keeps;
    apply keeps_modify; intros ?; apply P_legend.
Qed.

Lemma update_legends_keeps : keeps P update_legends.
Proof.
  unfold update_legends, subplots_dim. keeps_steps; apply update_legend_keeps.
Qed.

Lemma redraw_keeps : keeps P redraw.
Proof. unfold redraw. keeps_steps. Qed.

Lemma plot_keeps_property (x : pyval) (args : list pyval) (ax : target)
    (kw : gmap string pyval) :
  keeps P (plot x args ax kw).
Proof.
  unfold plot. apply keeps_bind.
  - destruct (decide (ax = TStr "default")); keeps_steps;
      apply set_default_axis_keeps.
  - intros ax'. apply keeps_bind; [apply get_axis_index_keeps|]. intros _.
    destruct ax'; keeps_steps;
      first [apply update_legend_keeps | apply redraw_keeps].
Qed.

Lemma plot_call_keeps (x : pyval) (args : list pyval) (kw : gmap string pyval) :
  keeps P (plot_call x args kw).
Proof. unfold plot_call. keeps_steps; apply plot_keeps_property. Qed.

Lemma add_lines_with_keeps
    (plot_method : pyval → list pyval → gmap string pyval → M unit)
    (x y : pyval) (mode : string) (kw : gmap string pyval) :
  (∀ x' args' kw', keeps P (plot_method x' args' kw')) →
  keeps P (add_lines_with plot_method x y mode kw).
Proof.
  intros Hplot. unfold add_lines_with.
  destruct (decide (lower mode = "dict")); [keeps_steps; apply Hplot|].
  destruct (decide (lower mode = "array")); keeps_steps. apply Hplot.
Qed.

Lemma update_plot_keeps (kw : gmap string pyval) : keeps P (update_plot kw).
Proof. unfold update_plot. keeps_steps; apply plot_keeps_property. Qed.

(** The methods that write [kwargs] and [_colorcycle] keep what does not
    depend on them. *)
Context (P_kwargs : ∀ kw s, P s → P (set_kwargs kw s)).
Context (P_colorcycle : ∀ v s, P s → P (set_colorcycle v s)).

Lemma autoscale_keeps (enable axis tight : pyval) :
  keeps P (autoscale enable axis tight).
Proof.
  unfold autoscale, get_axes, self_kwargs. keeps_steps;
    first [apply redraw_keeps | apply keeps_modify; intros ?; apply P_kwargs].
Qed.

Lemma delete_uniqueparams_keeps : keeps P _delete_uniqueparams.
Proof.
  unfold _delete_uniqueparams, self_kwargs. keeps_steps;
    apply keeps_modify; intros ?; first [apply P_kwargs | apply P_colorcycle].
Qed.

Lemma get_axes_keeps : keeps P get_axes.
Proof. unfold get_axes, self_kwargs. keeps_steps. Qed.

Lemma get_figure_keeps : keeps P get_figure.
Proof. unfold get_figure, self_kwargs. keeps_steps. Qed.
End Keeps.

Lemma in_use_set_default_ax (nrows ncols : Z) (s0 : Session) (a : Axes)
    (s : Session) :
  in_use nrows ncols s0 s → in_use nrows ncols s0 (set_default_ax a s).
Proof. intros [Hwf Hfr]. split; [by apply well_formed_set_default_ax|done]. Qed.

Lemma in_use_set_legends (nrows ncols : Z) (s0 : Session) (k : target)
    (v : option nat) (s : Session) :
  in_use nrows ncols s0 s →
  in_use nrows ncols s0 (set_legends (dict_set k v (_legends s)) s).
Proof. intros [Hwf Hfr]. by split. Qed.

Lemma in_use_no_kwargs (nrows ncols : Z) (s0 s : Session) :
  kwargs s0 = None → in_use nrows ncols s0 s → kwargs s = None.
Proof. intros H0 [_ [= _ _ _ _ _ _ _ ->]]. done. Qed.

Lemma get_axes_without_kwargs (st : St) :
  kwargs (self st) = None → get_axes st = (inl AttributeError, st).
Proof.
  intros Hkw. unfold get_axes, self_kwargs. unfold bind, gets. by rewrite Hkw.
Qed.

Lemma get_figure_without_kwargs (st : St) :
  kwargs (self st) = None → get_figure st = (inl AttributeError, st).
Proof.
  intros Hkw. unfold get_figure, self_kwargs. unfold bind, gets. by rewrite Hkw.
Qed.

Lemma run_call_in_use `{R : Renderer} (nrows ncols : Z) (s0 : Session)
    (c : call) (st : St) :
  kwargs s0 = None →
  in_use nrows ncols s0 (self st) → in_use nrows ncols s0 (self (run_call c st)).
Proof.
  intros H0 Hin. pose proof (in_use_no_kwargs _ _ _ _ H0 Hin) as Hkw.
  pose proof (in_use_set_default_ax nrows ncols s0) as Hd.
  pose proof (in_use_set_legends nrows ncols s0) as Hl.
  set (P := in_use nrows ncols s0) in *.
  destruct c; simpl.
  - by apply (plot_keeps_property P).
  - apply (add_lines_with_keeps P); [|done].
    intros. by apply (plot_call_keeps P).
  - by apply (update_plot_keeps P).
  - by apply (update_legends_keeps P).
  - by apply (update_legend_keeps P).
  - by apply (set_default_axis_keeps P).
  - by apply (get_axis_keeps P).
  - by apply (get_axis_index_keeps P).
  - by apply (redraw_keeps P).
  - by rewrite autoscale_without_kwargs.
  - by rewrite get_axes_without_kwargs.
  - by rewrite get_figure_without_kwargs.
  - by rewrite delete_uniqueparams_without_kwargs.
Qed.

Lemma run_calls_in_use `{R : Renderer} (nrows ncols : Z) (s0 : Session)
    (cs : list call) (st : St) :
  kwargs s0 = None →
  in_use nrows ncols s0 (self st) → in_use nrows ncols s0 (self (run_calls cs st)).
Proof.
  intros H0. revert st. induction cs as [|c cs IH]; intros st Hin; [done|].
  apply IH. by apply run_call_in_use.
Qed.

Lemma init_in_use `{R : Renderer} (nrows ncolumns : Z) (sharex sharey : pyval)
    (args : list pyval) (kw : gmap string pyval) (w w' : Env) (s : Session)
    (cs : list call) :
  init nrows ncolumns sharex sharey args kw w = (inr s, w') →
  in_use nrows ncolumns s (self (run_calls cs (mkSt s w')))
  ∧ kwargs (self (run_calls cs (mkSt s w'))) = None.
Proof.
  intros Hinit. pose proof (init_no_kwargs _ _ _ _ _ _ _ _ _ Hinit) as Hkw.
  apply init_inv in Hinit as (_ & Hr & Hc & ->).
  assert (in_use nrows ncolumns (init_session nrows ncolumns kw w)
            (self (run_calls cs (mkSt (init_session nrows ncolumns kw w) w'))))
    as Hin.
  { apply run_calls_in_use; [done|]. split; [|done].
    by apply init_well_formed. }
  split; [done|]. by apply (in_use_no_kwargs nrows ncolumns _ _ Hkw).
Qed.

(** X1.  Whatever sequence of calls is made on a constructed session, and
    however each call ends, the session stays in use: its grid, figure,
    figure settings, legend settings, line-plot defaults, other defaults
    and colour cycle are those [__init__] set, a default surface is set,
    and no [kwargs] store appears. *)
Theorem calls_keep_the_session_in_use `{R : Renderer} (nrows ncolumns : Z)
    (sharex sharey : pyval) (args : list pyval) (kw : gmap string pyval)
    (w w' : Env) (s : Session) (cs : list call) :
  init nrows ncolumns sharex sharey args kw w = (inr s, w') →
  let s' := self (run_calls cs (mkSt s w')) in
  well_formed nrows ncolumns s'
  ∧ _axes s' = _axes s ∧ _fig s' = _fig s
  ∧ _figure_settings s' = _figure_settings s
  ∧ _legend_settings s' = _legend_settings s
  ∧ _plot_settings_default s' = _plot_settings_default s
  ∧ _other_defaults s' = _other_defaults s
  ∧ _colorcycle s' = _colorcycle s
  ∧ kwargs s' = None.
Proof.
  intros Hinit s'.
  destruct (init_in_use _ _ _ _ _ _ _ _ _ cs Hinit) as [[Hwf Hfr] Hkw].
  fold s' in Hwf, Hfr, Hkw. unfold frame in Hfr.
  injection Hfr as H1 H2 H3 H4 H5 H6 H7 H8. by split_and!.
Qed.

Lemma calls_keep_the_session_in_use_witness :
  @init pyplot 2 2 (VBool false) (VBool false) [] ∅ env0
    = (inr (self session_2x2), world session_2x2)
  ∧ let s' := self (@run_calls pyplot some_calls
                      (mkSt (self session_2x2) (world session_2x2))) in
    well_formed 2 2 s'
    ∧ _axes s' = _axes (self session_2x2) ∧ _fig s' = _fig (self session_2x2)
    ∧ _figure_settings s' = _figure_settings (self session_2x2)
    ∧ _legend_settings s' = _legend_settings (self session_2x2)
    ∧ _plot_settings_default s' = _plot_settings_default (self session_2x2)
    ∧ _other_defaults s' = _other_defaults (self session_2x2)
    ∧ _colorcycle s' = _colorcycle (self session_2x2)
    ∧ kwargs s' = None.
Proof.
  split; [exact session_2x2_init|].
  exact (@calls_keep_the_session_in_use pyplot 2 2 (VBool false) (VBool false)
           [] ∅ env0 (world session_2x2) (self session_2x2) some_calls
           session_2x2_init).
Defined.

(** X2.  On a constructed session, after any sequence of calls, the
    methods that read the [kwargs] store, [autoscale], [get_axes],
    [get_figure] and [_delete_uniqueparams], raise [AttributeError] and
    change nothing. *)
Theorem kwargs_readers_raise_after_any_calls `{R : Renderer}
    (nrows ncolumns : Z) (sharex sharey : pyval) (args : list pyval)
    (kw : gmap string pyval) (w w' : Env) (s : Session) (cs : list call)
    (enable axis tight : pyval) :
  init nrows ncolumns sharex sharey args kw w = (inr s, w') →
  let st := run_calls cs (mkSt s w') in
  autoscale enable axis tight st = (inl AttributeError, st)
  ∧ get_axes st = (inl AttributeError, st)
  ∧ get_figure st = (inl AttributeError, st)
  ∧ _delete_uniqueparams st = (inl AttributeError, st).
Proof.
  intros Hinit st.
  destruct (init_in_use _ _ _ _ _ _ _ _ _ cs Hinit) as [_ Hkw].
  fold st in Hkw. split_and!.
  - by apply autoscale_without_kwargs.
  - by apply get_axes_without_kwargs.
  - by apply get_figure_without_kwargs.
  - by apply delete_uniqueparams_without_kwargs.
Qed.

Lemma kwargs_readers_raise_after_any_calls_witness :
  @init pyplot 2 2 (VBool false) (VBool false) [] ∅ env0
    = (inr (self session_2x2), world session_2x2)
  ∧ let st := @run_calls pyplot some_calls
                (mkSt (self session_2x2) (world session_2x2)) in
    autoscale (VBool true) (VStr "both") VNone st = (inl AttributeError, st)
    ∧ get_axes st = (inl AttributeError, st)
    ∧ get_figure st = (inl AttributeError, st)
    ∧ _delete_uniqueparams st = (inl AttributeError, st).
Proof.
  split; [exact session_2x2_init|].
  exact (@kwargs_readers_raise_after_any_calls pyplot 2 2 (VBool false)
           (VBool false) [] ∅ env0 (world session_2x2) (self session_2x2)
           some_calls (VBool true) (VStr "both") VNone session_2x2_init).
Defined.



(** ** The keyword options of [__init__] *)

Section Buckets.
Context `{R : Renderer}.

(** Where [__init__] puts an option: in the figure settings when it passes
    the probe on [plt.subplots] or the one on [plt.legend], else in the
    line-plot defaults when it passes the probe on [plt.plot], else in the
    other defaults when they hold that name already; nowhere otherwise. *)
Lemma init_buckets_lookup (kw : gmap string pyval) (key : string) :
  b_figure (init_buckets kw) !! key
  = (if hasattr_subplots key || hasattr_legend key
     then match kw !! key with
          | Some v => Some v
          | None => Cls._figure_defaults !! key
          end
     else Cls._figure_defaults !! key)
  ∧ b_plot (init_buckets kw) !! key
    = (if negb (hasattr_subplots key || hasattr_legend key) && hasattr_plot key
       then match kw !! key with
            | Some v => Some v
            | None => Cls._plot_defaults !! key
            end
       else Cls._plot_defaults !! key)
  ∧ b_other (init_buckets kw) !! key
    = (if negb (hasattr_subplots key || hasattr_legend key)
          && negb (hasattr_plot key)
          && bool_decide (is_Some (Cls._other_defaults !! key))
       then match kw !! key with
            | Some v => Some v
            | None => Cls._other_defaults !! key
            end
       else Cls._other_defaults !! key).
Proof.
  unfold init_buckets. revert key.
  apply (map_fold_weak_ind (λ b (m : gmap string pyval), ∀ key,
    b_figure b !! key
    = (if hasattr_subplots key || hasattr_legend key
       then match m !! key with
            | Some v => Some v
            | None => Cls._figure_defaults !! key
            end
       else Cls._figure_defaults !! key)
    ∧ b_plot b !! key
      = (if negb (hasattr_subplots key || hasattr_legend key) && hasattr_plot key
         then match m !! key with
              | Some v => Some v
              | None => Cls._plot_defaults !! key
              end
         else Cls._plot_defaults !! key)
    ∧ b_other b !! key
      = (if negb (hasattr_subplots key || hasattr_legend key)
            && negb (hasattr_plot key)
            && bool_decide (is_Some (Cls._other_defaults !! key))
         then match m !! key with
              | Some v => Some v
              | None => Cls._other_defaults !! key
              end
         else Cls._other_defaults !! key))).
  - intros key. rewrite lookup_empty. simpl.
    by repeat destruct (_ && _) || destruct (_ || _).
  - intros i v m b Hfresh IH key.
    destruct (IH i) as (_ & _ & Hother_i). rewrite Hfresh in Hother_i.
    assert (b_other b !! i = Cls._other_defaults !! i) as Hoi.
    { rewrite Hother_i. by destruct (_ && _). }
    destruct (IH key) as (Hf & Hp & Ho).
    unfold sort_kwarg.
    destruct (decide (i = key)) as [->|Hne].
    + rewrite lookup_insert_eq.
      rewrite Hfresh in Hf, Hp, Ho. rewrite Hoi.
      destruct (hasattr_subplots key); simpl in *;
        [by rewrite lookup_insert_eq|].
      destruct (hasattr_legend key); simpl in *;
        [by rewrite lookup_insert_eq|].
      destruct (hasattr_plot key); simpl in *;
        [by rewrite lookup_insert_eq|].
      destruct (bool_decide (is_Some (Cls._other_defaults !! key))); simpl in *;
        [by rewrite lookup_insert_eq|done].
    + rewrite (lookup_insert_ne m) by done.
      repeat case_match; simpl; rewrite ?lookup_insert_ne by done; done.
Qed.
End Buckets.

Lemma buckets_eq `{R : Renderer} (b1 b2 : buckets) :
  b_figure b1 = b_figure b2 → b_plot b1 = b_plot b2 → b_other b1 = b_other b2 →
  b1 = b2.
Proof. destruct b1, b2. simpl. by intros -> -> ->. Qed.

(** The renderer after a successful [__init__]: one figure more, and two
    calls more in the trace, [plt.subplots] and [plt.sca]. *)
Lemma init_inv_env `{R : Renderer} (nrows ncolumns : Z) (sharex sharey : pyval)
    (args : list pyval) (kw : gmap string pyval) (w w' : Env) (s : Session) :
  init nrows ncolumns sharex sharey args kw w = (inr s, w') →
  w' = mkEnv (interactive w) (closed_figs w) (S (next_fig w)) (next_leg w)
             (trace w ++ [EvSubplots (next_fig w) nrows ncolumns
                                     (b_figure (init_buckets kw));
                          EvSca (mkAxes (next_fig w) 0 0)]).
Proof.
  intros Hinit. pose proof Hinit as (-> & Hr & Hc & _)%init_inv.
  destruct (subplots_accepts (b_figure (init_buckets kw))) eqn:Hacc.
  - rewrite (init_run nrows ncolumns sharex sharey kw w Hr Hc Hacc) in Hinit.
    by injection Hinit as _ <-.
  - unfold init, subplots in Hinit. fold (init_buckets kw) in Hinit.
    by rewrite Hacc in Hinit.
Qed.

Lemma dict_find_set_eq {K V} `{EqDecision K} (k : K) (v : V) (d : list (K * V)) :
  dict_find k (dict_set k v d) = Some v.
Proof.
  induction d as [|[k' v'] d IH]; simpl; [by rewrite decide_True|].
  destruct (decide (k = k')) as [->|Hne]; simpl.
  - by rewrite decide_True.
  - by rewrite decide_False.
Qed.

Lemma dict_find_set_ne {K V} `{EqDecision K} (k k' : K) (v : V)
    (d : list (K * V)) :
  k ≠ k' → dict_find k' (dict_set k v d) = dict_find k' d.
Proof.
  intros Hne. induction d as [|[k'' v''] d IH]; simpl.
  - by rewrite decide_False.
  - destruct (decide (k = k'')) as [->|Hne']; simpl.
    + by rewrite !decide_False.
    + by rewrite IH.
Qed.



(** X5.  The [sharex] and [sharey] arguments of [__init__] are not used:
    whatever they are, [plt.subplots] is called with [sharex=False] and
    [sharey=False], the class defaults, and the session records the same. *)
Theorem init_ignores_sharex_sharey `{R : Renderer} (nrows ncolumns : Z)
    (sharex sharey : pyval) (args : list pyval) (kw : gmap string pyval)
    (w w' : Env) (s : Session) :
  init nrows ncolumns sharex sharey args kw w = (inr s, w') →
  kw !! "sharex" = None → kw !! "sharey" = None →
  ∃ fig_kw,
    trace w' = trace w ++ [EvSubplots (next_fig w) nrows ncolumns fig_kw;
                           EvSca (mkAxes (next_fig w) 0 0)]
    ∧ fig_kw !! "sharex" = Some (VBool false)
    ∧ fig_kw !! "sharey" = Some (VBool false)
    ∧ _figure_settings s !! "sharex" = Some (VBool false)
    ∧ _figure_settings s !! "sharey" = Some (VBool false).
Proof.
  intros Hinit Hx Hy.
  pose proof (init_inv_env _ _ _ _ _ _ _ _ _ Hinit) as ->.
  apply init_inv in Hinit as (_ & _ & _ & ->).
  assert (b_figure (init_buckets kw) !! "sharex" = Some (VBool false)) as Hsx.
  { rewrite (proj1 (init_buckets_lookup kw "sharex")), Hx.
    by destruct (_ || _). }
  assert (b_figure (init_buckets kw) !! "sharey" = Some (VBool false)) as Hsy.
  { rewrite (proj1 (init_buckets_lookup kw "sharey")), Hy.
    by destruct (_ || _). }
  eexists. split; [done|]. simpl.
  by rewrite !lookup_insert_ne.
Qed.

Lemma init_ignores_sharex_sharey_witness :
  @init pyplot 2 2 (VBool true) (VBool true) [] ∅ env0
    = (inr (self session_2x2), world session_2x2)
  ∧ ∃ fig_kw,
      trace (world session_2x2)
      = trace env0 ++ [EvSubplots (next_fig env0) 2 2 fig_kw;
                       EvSca (mkAxes (next_fig env0) 0 0)]
      ∧ fig_kw !! "sharex" = Some (VBool false)
      ∧ fig_kw !! "sharey" = Some (VBool false)
      ∧ _figure_settings (self session_2x2) !! "sharex" = Some (VBool false)
      ∧ _figure_settings (self session_2x2) !! "sharey" = Some (VBool false).
Proof.
  assert (@init pyplot 2 2 (VBool true) (VBool true) [] ∅ env0
          = (inr (self session_2x2), world session_2x2)) as Hinit
    by exact session_2x2_init.
  split; [exact Hinit|].
  exact (@init_ignores_sharex_sharey pyplot 2 2 (VBool true) (VBool true) [] ∅
           env0 (world session_2x2) (self session_2x2) Hinit eq_refl eq_refl).
Defined.

(** X6.  An option that passes none of the three probes and is not a name
    the other defaults hold is dropped by [__init__]: the outcome, the
    session and the calls into the renderer are those of the same call
    without the option. *)
Theorem init_drops_unrecognised_option `{R : Renderer} (nrows ncolumns : Z)
    (sharex sharey : pyval) (args : list pyval) (kw : gmap string pyval)
    (w : Env) (key : string) (v : pyval) :
  hasattr_subplots key = false → hasattr_legend key = false →
  hasattr_plot key = false → key ≠ "showlegend" →
  init nrows ncolumns sharex sharey args (<[key := v]> kw) w
  = init nrows ncolumns sharex sharey args (delete key kw) w.
Proof.
  intros Hs Hl Hp Hne.
  assert (Cls._other_defaults !! key = None) as Hother.
  { unfold Cls._other_defaults. by rewrite lookup_insert_ne, lookup_empty. }
  assert (init_buckets (<[key := v]> kw) = init_buckets (delete key kw)) as Hb.
  { apply buckets_eq; apply map_eq; intros k.
    - rewrite !(proj1 (init_buckets_lookup _ k)).
      destruct (decide (key = k)) as [<-|Hk].
      + by rewrite Hs, Hl.
      + by rewrite lookup_insert_ne, lookup_delete_ne.
    - rewrite !(proj1 (proj2 (init_buckets_lookup _ k))).
      destruct (decide (key = k)) as [<-|Hk].
      + by rewrite Hs, Hl, Hp.
      + by rewrite lookup_insert_ne, lookup_delete_ne.
    - rewrite !(proj2 (proj2 (init_buckets_lookup _ k))).
      destruct (decide (key = k)) as [<-|Hk].
      + rewrite Hother. by rewrite andb_false_r.
      + by rewrite lookup_insert_ne, lookup_delete_ne. }
  unfold init. destruct args; [|done].
  fold (init_buckets (<[key := v]> kw)). fold (init_buckets (delete key kw)).
  by rewrite Hb.
Qed.

Lemma init_drops_unrecognised_option_witness :
  @hasattr_subplots pyplot "figsize" = false
  ∧ @hasattr_legend pyplot "figsize" = false
  ∧ @hasattr_plot pyplot "figsize" = false
  ∧ "figsize" ≠ "showlegend"
  ∧ @init pyplot 1 1 (VBool false) (VBool false) []
      (<["figsize" := VTuple [VInt 3; VInt 4]]> ∅) env0
    = @init pyplot 1 1 (VBool false) (VBool false) [] (delete "figsize" ∅) env0.
Proof.
  assert ("figsize" ≠ "showlegend") as Hne by discriminate.
  split; [reflexivity|]. split; [reflexivity|]. split; [reflexivity|].
  split; [exact Hne|].
  exact (@init_drops_unrecognised_option pyplot 1 1 (VBool false) (VBool false)
           [] ∅ env0 "figsize" (VTuple [VInt 3; VInt 4])
           eq_refl eq_refl eq_refl Hne).
Defined.

(** ** Legends at plot time *)

(** X7.  A session constructed with a false [showlegend], the option
    passing none of the three probes, never asks the renderer for a
    legend: after any sequence of calls, a plot call still makes only the
    tick-format and plot calls, and the redraw in interactive mode; no
    legend is created, and the registry holds [None] for the surface. *)
Theorem session_without_legend_never_asks_for_one `{R : Renderer}
    (nrows ncolumns : Z) (sharex sharey : pyval) (args : list pyval)
    (kw : gmap string pyval) (w w' : Env) (s : Session) (v : pyval)
    (cs : list call) (x : pyval) (xargs : list pyval)
    (kwc : gmap string pyval) :
  init nrows ncolumns sharex sharey args kw w = (inr s, w') →
  hasattr_subplots "showlegend" = false →
  hasattr_legend "showlegend" = false →
  hasattr_plot "showlegend" = false →
  kw !! "showlegend" = Some v →
  py_truth v = false →
  let st := run_calls cs (mkSt s w') in
  ∃ a st',
    default_ax (self st) = Some a
    ∧ plot x xargs (TStr "default") kwc st = (inr tt, st')
    ∧ trace (world st') =
        trace (world st)
        ++ [EvTickFormat a;
            EvPlot a x xargs (plot_settings (_plot_settings_default s) kwc)]
        ++ (if interactive (world st)
            then redraw_events (self st) (world st) else [])
    ∧ next_leg (world st') = next_leg (world st)
    ∧ dict_find (TAxes a) (_legends (self st')) = Some None.
Proof.
  intros Hinit Hs Hl Hp Hkw Hv st.
  destruct (init_in_use _ _ _ _ _ _ _ _ _ cs Hinit) as [[Hwf Hfr] _].
  fold st in Hwf, Hfr.
  apply init_inv in Hinit as (_ & _ & _ & ->).
  injection Hfr as _ _ Hd Ho _ _ _ _.
  assert (_other_defaults (self st) !! "showlegend" = Some v) as Hshow.
  { rewrite Ho. simpl.
    rewrite (proj2 (proj2 (init_buckets_lookup kw "showlegend"))).
    by rewrite Hs, Hl, Hp, Hkw. }
  assert (legend_made (self st) (world st) = None) as Hnone.
  { unfold legend_made. by rewrite Hshow, Hv. }
  pose proof Hwf as (_ & _ & _ & _ & _ & [a Ha]).
  exists a, (plot_state a x xargs kwc st). split_and!; [done| | | |].
  - by apply (plot_default_run nrows ncolumns).
  - unfold plot_state, plot_events, with_trace, legend_events. simpl.
    by rewrite Hnone, Hd.
  - unfold plot_state, with_trace. simpl. rewrite Hnone. lia.
  - unfold plot_state. simpl. by rewrite Hnone, dict_find_set_eq.
Qed.

Lemma session_without_legend_never_asks_for_one_witness :
  @init pyplot 1 1 (VBool false) (VBool false) []
     (<["showlegend" := VBool false]> ∅) env0
  = (inr (@init_session pyplot 1 1 (<["showlegend" := VBool false]> ∅) env0),
     mkEnv false [] 1 0
       [EvSubplots 0 1 1
          (b_figure (@init_buckets pyplot (<["showlegend" := VBool false]> ∅)));
        EvSca (mkAxes 0 0 0)])
  ∧ ∃ st',
      @plot pyplot (VList [VInt 1; VInt 2]) [] (TStr "default") ∅
        (mkSt (@init_session pyplot 1 1 (<["showlegend" := VBool false]> ∅) env0)
           (mkEnv false [] 1 0
              [EvSubplots 0 1 1
                 (b_figure (@init_buckets pyplot
                              (<["showlegend" := VBool false]> ∅)));
               EvSca (mkAxes 0 0 0)]))
      = (inr tt, st')
      ∧ next_leg (world st') = 0%nat
      ∧ dict_find (TAxes (mkAxes 0 0 0)) (_legends (self st')) = Some None.
Proof.
  assert (@init pyplot 1 1 (VBool false) (VBool false) []
            (<["showlegend" := VBool false]> ∅) env0
          = (inr (@init_session pyplot 1 1
                    (<["showlegend" := VBool false]> ∅) env0),
             mkEnv false [] 1 0
               [EvSubplots 0 1 1
                  (b_figure (@init_buckets pyplot
                               (<["showlegend" := VBool false]> ∅)));
                EvSca (mkAxes 0 0 0)])) as Hinit
    by (by apply (@init_run pyplot)).
  split; [exact Hinit|].
  destruct (@session_without_legend_never_asks_for_one pyplot 1 1
              (VBool false) (VBool false) []
              (<["showlegend" := VBool false]> ∅) env0 _ _ (VBool false) []
              (VList [VInt 1; VInt 2]) [] ∅ Hinit
              eq_refl eq_refl eq_refl eq_refl eq_refl)
    as (a & st' & Ha & Hplot & _ & Hleg & Hreg).
  injection Ha as <-.
  exists st'. split; [exact Hplot|]. split; [exact Hleg|exact Hreg].
Defined.

(** ** Looking a surface up *)

Lemma for_until_find {A B} (l : list A) (body : A → M (option B)) (st : St)
    (f : A → bool) (b : B) :
  (∀ a, a ∈ l → body a st = (inr (if f a then Some b else None), st)) →
  for_until l body st = (inr (if existsb f l then Some b else None), st).
Proof.
  induction l as [|a l IH]; intros Hbody; [done|].
  simpl. unfold bind. rewrite Hbody by (by left).
  destruct (f a); [done|]. simpl. apply IH.
  intros a' Ha'. apply Hbody. by right.
Qed.

Lemma arange_elem_2 (i n : Z) : 0 ≤ i < n → i ∈ arange n.
Proof.
  intros Hi. unfold arange. apply list_elem_of_fmap. exists (Z.to_nat i).
  split; [lia|]. apply elem_of_seq. lia.
Qed.

(** X8.  On a session in use [get_axis_index] never returns an index: it
    returns the very object it was given when that is a surface of the
    grid, and [None] for every other surface and every other object; it
    changes nothing. *)
Theorem get_axis_index_returns_its_argument_or_none
    (nrows ncols : Z) (ax : target) (st : St) :
  well_formed nrows ncols (self st) →
  get_axis_index ax st
  = (inr (match ax with
          | TAxes a => if in_grid nrows ncols (self st) a then Some ax else None
          | _ => None
          end), st).
Proof.
  intros Hwf. unfold get_axis_index.
  destruct (subplots_dim_run _ _ _ Hwf) as [H0 H1].
  unfold bind at 1. rewrite H0.
  rewrite (for_until_find _ _ st
             (λ i, existsb (λ j, bool_decide
                (ax = TAxes (mkAxes (_fig (self st)) (Z.to_nat i) (Z.to_nat j))))
                (arange ncols)) ax).
  - f_equal. f_equal.
    destruct (existsb _ (arange nrows)) eqn:Hex.
    + apply existsb_exists in Hex as (i & Hi & Hex).
      apply existsb_exists in Hex as (j & Hj & Hex).
      apply bool_decide_eq_true in Hex as ->.
      apply list_elem_of_In, arange_elem in Hi, Hj.
      unfold in_grid. simpl. rewrite bool_decide_eq_true_2; [done|].
      split_and!; [done|lia|lia].
    + destruct ax as [| a | | | |]; try done.
      destruct (in_grid nrows ncols (self st) a) eqn:Hin; [|done].
      apply bool_decide_eq_true in Hin as (Hf & Hr & Hc).
      assert (existsb (λ i, existsb (λ j, bool_decide
                (TAxes a = TAxes (mkAxes (_fig (self st)) (Z.to_nat i)
                                         (Z.to_nat j))))
                (arange ncols)) (arange nrows) = true) as Htrue; [|congruence].
      apply existsb_exists. exists (Z.of_nat (ax_row a)). split.
      { apply list_elem_of_In, arange_elem_2. lia. }
      apply existsb_exists. exists (Z.of_nat (ax_col a)). split.
      { apply list_elem_of_In, arange_elem_2. lia. }
      apply bool_decide_eq_true. rewrite !Nat2Z.id, <- Hf. by destruct a.
  - intros i Hi%arange_elem. unfold bind at 1. rewrite H1.
    apply for_until_find. intros j Hj%arange_elem.
    unfold bind. rewrite (axes_at_run _ _ _ _ _ Hwf Hi Hj). simpl.
    destruct (decide (ax = _)) as [Heq|Hne].
    + by rewrite bool_decide_eq_true_2.
    + by rewrite bool_decide_eq_false_2.
Qed.

Lemma get_axis_index_returns_its_argument_or_none_witness :
  well_formed 2 2 (self session_2x2)
  ∧ get_axis_index (TAxes (mkAxes 0 1 1)) session_2x2
    = (inr (Some (TAxes (mkAxes 0 1 1))), session_2x2)
  ∧ get_axis_index (TAxes (mkAxes 7 0 0)) session_2x2 = (inr None, session_2x2)
  ∧ get_axis_index (TTuple [1; 1]) session_2x2 = (inr None, session_2x2).
Proof.
  split; [exact session_2x2_well_formed|]. split_and!.
  - exact (get_axis_index_returns_its_argument_or_none 2 2
             (TAxes (mkAxes 0 1 1)) session_2x2 session_2x2_well_formed).
  - exact (get_axis_index_returns_its_argument_or_none 2 2
             (TAxes (mkAxes 7 0 0)) session_2x2 session_2x2_well_formed).
  - exact (get_axis_index_returns_its_argument_or_none 2 2
             (TTuple [1; 1]) session_2x2 session_2x2_well_formed).
Defined.

(** ** Plot calls that fail, and plot calls on a surface *)





(** X10.  A plot call whose target is a surface object draws on that
    surface, whether the grid holds it or not, and leaves the session's
    default surface as it was.  The renderer is asked, in this order, to
    format the ticks, to plot, to build a legend and make it draggable
    when the legend switch is on, and, in interactive mode only, to show
    the figure again if it was closed and to draw it.  In the registry the
    entry of that surface becomes the new legend, or [None] with the
    switch off, and every other entry is untouched. *)
Theorem plot_on_a_surface `{R : Renderer} (nrows ncols : Z) (a : Axes)
    (x : pyval) (args : list pyval) (kw : gmap string pyval) (st : St) :
  well_formed nrows ncols (self st) →
  ∃ st',
    plot x args (TAxes a) kw st = (inr tt, st')
    ∧ default_ax (self st') = default_ax (self st)
    ∧ trace (world st') =
        trace (world st)
        ++ [EvTickFormat a;
            EvPlot a x args
                   (plot_settings (_plot_settings_default (self st)) kw)]
        ++ match legend_made (self st) (world st) with
           | Some n => [EvLegend a (_legend_settings (self st)) n; EvDraggable n]
           | None => []
           end
        ++ (if interactive (world st)
            then (if bool_decide (_fig (self st) ∈ closed_figs (world st))
                  then [EvShow (_fig (self st))] else [])
                 ++ [EvDraw (_fig (self st))]
            else [])
    ∧ dict_find (TAxes a) (_legends (self st'))
      = Some (legend_made (self st) (world st))
    ∧ ∀ k, k ≠ TAxes a →
        dict_find k (_legends (self st')) = dict_find k (_legends (self st)).
Proof.
  intros Hwf. exists (plot_state a x args kw st). split_and!.
  - by apply (plot_axes_run nrows ncols).
  - done.
  - unfold plot_state, plot_events, with_trace, legend_events, redraw_events.
    simpl. by destruct (interactive (world st)).
  - simpl. by rewrite dict_find_set_eq.
  - intros k Hk. simpl. by rewrite dict_find_set_ne.
Qed.

Lemma plot_on_a_surface_witness :
  well_formed 2 2 (self session_2x2)
  ∧ ∃ st',
      @plot pyplot (VList [VInt 1]) [] (TAxes (mkAxes 9 0 0)) ∅ session_2x2
      = (inr tt, st')
      ∧ default_ax (self st') = Some (mkAxes 0 0 0)
      ∧ draw_calls (trace (world st'))
        = [(mkAxes 9 0 0, VList [VInt 1], [], <["linestyle" := VStr "-"]> ∅)].
Proof.
  split; [exact session_2x2_well_formed|].
  destruct (@plot_on_a_surface pyplot 2 2 (mkAxes 9 0 0) (VList [VInt 1]) [] ∅
              session_2x2 session_2x2_well_formed)
    as (st' & Hplot & Hd & Htrace & _).
  exists st'. split; [exact Hplot|]. split; [exact Hd|].
  rewrite Htrace. reflexivity.
Defined.

(** ** Refreshing all legends *)

Lemma dict_set_keys {K V} `{EqDecision K} (k : K) (v : V) (d : list (K * V)) :
  (dict_set k v d).*1 = if decide (k ∈ d.*1) then d.*1 else d.*1 ++ [k].
Proof.
  induction d as [|[k' v'] d IH].
  - destruct (decide (k ∈ ([] : list (K * V)).*1)) as [Hin|Hnin]; [|done].
    by apply elem_of_nil in Hin.
  - cbn [dict_set]. rewrite !fmap_cons. cbn [fst].
    destruct (decide (k = k')) as [->|Hne].
    + rewrite fmap_cons. cbn [fst].
      destruct (decide (k' ∈ k' :: d.*1)) as [Hin|Hnin]; [done|].
      destruct Hnin. by left.
    + rewrite fmap_cons, IH. cbn [fst].
      destruct (decide (k ∈ d.*1)) as [Hin|Hnin];
        destruct (decide (k ∈ k' :: d.*1)) as [Hin'|Hnin']; try done.
      * destruct Hnin'. by right.
      * by apply elem_of_cons in Hin' as [?|?].
Qed.

Lemma legend_step_keys (st : St) (ij : Z * Z) :
  (_legends (self (legend_step st ij))).*1
  = if decide (index_key ij ∈ (_legends (self st)).*1)
    then (_legends (self st)).*1
    else (_legends (self st)).*1 ++ [index_key ij].
Proof. simpl. apply dict_set_keys. Qed.

Lemma legend_fold_keys_mono (l : list (Z * Z)) (st : St) (k : target) :
  k ∈ (_legends (self st)).*1 → k ∈ (_legends (self (legend_fold l st))).*1.
Proof.
  revert st. induction l as [|ij l IH]; intros st Hk; [done|].
  change (legend_fold (ij :: l) st) with (legend_fold l (legend_step st ij)).
  apply IH. rewrite legend_step_keys.
  destruct (decide _); [done|]. apply elem_of_app. by left.
Qed.

Lemma legend_fold_keys_has (l : list (Z * Z)) (st : St) (ij : Z * Z) :
  ij ∈ l → index_key ij ∈ (_legends (self (legend_fold l st))).*1.
Proof.
  revert st. induction l as [|ij' l IH]; intros st Hin;
    [by apply elem_of_nil in Hin|].
  change (legend_fold (ij' :: l) st) with (legend_fold l (legend_step st ij')).
  apply elem_of_cons in Hin as [->|Hin]; [|by apply IH].
  apply legend_fold_keys_mono. rewrite legend_step_keys.
  destruct (decide _); [done|].
  apply elem_of_app. right. by apply list_elem_of_singleton.
Qed.

Lemma legend_fold_keys_stable (l : list (Z * Z)) (st : St) :
  (∀ ij, ij ∈ l → index_key ij ∈ (_legends (self st)).*1) →
  (_legends (self (legend_fold l st))).*1 = (_legends (self st)).*1.
Proof.
  revert st. induction l as [|ij l IH]; intros st Hl; [done|].
  assert ((_legends (self (legend_step st ij))).*1 = (_legends (self st)).*1)
    as Hstep.
  { rewrite legend_step_keys, decide_True; [done|]. apply Hl. by left. }
  change (legend_fold (ij :: l) st) with (legend_fold l (legend_step st ij)).
  rewrite IH; [done|]. intros ij' Hij'. rewrite Hstep. apply Hl. by right.
Qed.

(** X11.  On a newly constructed session [update_legends] succeeds and
    returns a registry of exactly rows x columns entries, one per surface,
    keyed by the grid indices (i, j) in row-major order. *)
Theorem update_legends_on_new_session `{R : Renderer} (nrows ncolumns : Z)
    (sharex sharey : pyval) (args : list pyval) (kw : gmap string pyval)
    (w w' : Env) (s : Session) :
  init nrows ncolumns sharex sharey args kw w = (inr s, w') →
  ∃ legends st',
    update_legends (mkSt s w') = (inr legends, st')
    ∧ legends = _legends (self st')
    ∧ legends.*1 = index_key <$> row_major nrows ncolumns
    ∧ length legends = (Z.to_nat nrows * Z.to_nat ncolumns)%nat.
Proof.
  intros (_ & Hr & Hc & ->)%init_inv.
  pose proof (init_well_formed nrows ncolumns kw w Hr Hc) as Hwf.
  destruct (update_legends_adds_grid_indices nrows ncolumns
              (mkSt (init_session nrows ncolumns kw w) w') Hwf)
    as (legends & st' & Hrun & Hkeys & Hlen).
  { intros ij. simpl. by intros ?%elem_of_nil. }
  exists legends, st'. split_and!; [done| |done|done].
  rewrite (update_legends_run nrows ncolumns) in Hrun by done.
  by injection Hrun as <- <-.
Qed.

Lemma update_legends_on_new_session_witness :
  @init pyplot 2 2 (VBool false) (VBool false) [] ∅ env0
    = (inr (self session_2x2), world session_2x2)
  ∧ ∃ legends st',
      update_legends (mkSt (self session_2x2) (world session_2x2))
      = (inr legends, st')
      ∧ legends = _legends (self st')
      ∧ legends.*1 = [TTuple [0; 0]; TTuple [0; 1]; TTuple [1; 0]; TTuple [1; 1]]
      ∧ length legends = 4%nat.
Proof.
  split; [exact session_2x2_init|].
  exact (@update_legends_on_new_session pyplot 2 2 (VBool false) (VBool false)
           [] ∅ env0 (world session_2x2) (self session_2x2) session_2x2_init).
Defined.

(** X12.  On a session in use [update_legends] succeeds, and the registry
    it returns has an entry for every grid index; a second call right
    after returns a registry with the same keys in the same order: only
    the legends are rebuilt. *)
Theorem update_legends_again_keeps_the_keys (nrows ncols : Z) (st : St) :
  well_formed nrows ncols (self st) →
  ∃ legends1 st1 legends2 st2,
    update_legends st = (inr legends1, st1)
    ∧ update_legends st1 = (inr legends2, st2)
    ∧ (∀ i j, 0 ≤ i < nrows → 0 ≤ j < ncols → TTuple [i; j] ∈ legends1.*1)
    ∧ legends2.*1 = legends1.*1.
Proof.
  intros Hwf.
  pose proof (legend_fold_well_formed nrows ncols (row_major nrows ncols) st Hwf)
    as Hwf1.
  eexists _, _, _, _. split_and!.
  - by apply (update_legends_run nrows ncols).
  - by apply (update_legends_run nrows ncols).
  - intros i j Hi Hj.
    apply (legend_fold_keys_has _ _ (i, j)). by apply row_major_elem.
  - apply legend_fold_keys_stable. intros ij Hij.
    by apply legend_fold_keys_has.
Qed.

Lemma update_legends_again_keeps_the_keys_witness :
  well_formed 2 2 (self session_2x2)
  ∧ ∃ legends1 st1 legends2 st2,
      update_legends session_2x2 = (inr legends1, st1)
      ∧ update_legends st1 = (inr legends2, st2)
      ∧ (∀ i j, 0 ≤ i < 2 → 0 ≤ j < 2 → TTuple [i; j] ∈ legends1.*1)
      ∧ legends2.*1 = legends1.*1.
Proof.
  split; [exact session_2x2_well_formed|].
  exact (update_legends_again_keeps_the_keys 2 2 session_2x2
           session_2x2_well_formed).
Defined.

(** ** More on plotting many series *)

Lemma for_each_ext {A} (l : list A) (body1 body2 : A → M unit) (st : St) :
  (∀ a st', a ∈ l → body1 a st' = body2 a st') →
  for_each l body1 st = for_each l body2 st.
Proof.
  revert st. induction l as [|a l IH]; intros st Hbody; [done|].
  cbn [for_each]. unfold bind. rewrite Hbody by (by left).
  destruct (body2 a st) as [[e|[]] st']; [done|].
  apply IH. intros a' st'' Ha'. apply Hbody. by right.
Qed.

Lemma add_lines_array_loop
    (plot_method : pyval → list pyval → gmap string pyval → M unit)
    (x : pyval) (y : pyval) (rows : list pyval) (kw : gmap string pyval)
    (body : Z → M unit) :
  (y = VList rows ∨ y = VTuple rows) →
  (∀ ind st, body ind st
     = (y_ind <- lift (getitem y (VInt ind)) ;;
        plot_method (x_row ind x) [y_ind] (per_row ind <$> kw)) st) →
  ∀ (rest : list pyval) (k : nat) (st : St),
    (∀ i row, rest !! i = Some row → rows !! (k + i)%nat = Some row) →
    for_each (Z.of_nat <$> seq k (length rest)) body st
    = for_each (zip (Z.of_nat <$> seq k (length rest)) rest)
        (λ r, plot_method (x_row r.1 x) [r.2] (per_row r.1 <$> kw)) st.
Proof.
  intros Hy Hbody. induction rest as [|row rest IH]; intros k st Hrows;
    [done|].
  cbn [length seq fmap list_fmap zip zip_with for_each fst snd].
  unfold bind at 1. rewrite Hbody. unfold bind at 1.
  assert (getitem y (VInt (Z.of_nat k)) = inr row) as ->.
  { assert (py_index rows (Z.of_nat k) = inr row) as Hindex.
    { apply py_index_in_range; [lia|]. rewrite Nat2Z.id.
      rewrite <- (Nat.add_0_r k). by apply Hrows. }
    by destruct Hy as [-> | ->]. }
  cbn [lift ret fst snd]. unfold bind at 1.
  destruct (plot_method _ _ _ st) as [[e|[]] st']; [done|].
  apply IH. intros i row' Hi.
  replace (S k + i)%nat with (k + S i)%nat by lia. by apply Hrows.
Qed.

(** X13.  In array mode, with [y] a list or a tuple of rows, [add_lines]
    calls the plot method once per row, in order, with that row as data.
    An option whose value is text or a tuple is handed on as it is; any
    other value is replaced by its entry at the row number when it has
    one, and handed on whole otherwise, for instance a list shorter than
    [y] at the rows beyond its end.  [x] gives its row when it has one
    that can be sliced, and is handed on whole otherwise. *)
Theorem add_lines_array_resolves_per_row
    (plot_method : pyval → list pyval → gmap string pyval → M unit)
    (x y : pyval) (rows : list pyval) (mode : string)
    (kw : gmap string pyval) (st : St) :
  lower mode = "array" →
  y = VList rows ∨ y = VTuple rows →
  add_lines_with plot_method x y mode kw st
  = for_each (numbered rows)
      (λ r, plot_method (x_row r.1 x) [r.2] (per_row r.1 <$> kw)) st
  ∧ (∀ ind name v, kw !! name = Some v →
       (per_row ind <$> kw) !! name = Some (per_row ind v))
  ∧ (∀ ind s, per_row ind (VStr s) = VStr s)
  ∧ (∀ ind l, per_row ind (VTuple l) = VTuple l)
  ∧ (∀ ind l v, 0 ≤ ind → l !! Z.to_nat ind = Some v →
       per_row ind (VList l) = v)
  ∧ (∀ ind l, Z.of_nat (length l) ≤ ind → per_row ind (VList l) = VList l).
Proof.
  intros Hmode Hy. split_and!.
  - unfold add_lines_with.
    rewrite decide_False by (rewrite Hmode; discriminate).
    rewrite decide_True by done.
    assert (py_len y = inr (Z.of_nat (length rows))) as ->
      by (by destruct Hy as [-> | ->]).
    unfold bind at 1. unfold lift at 1, ret at 1.
    unfold numbered, arange. rewrite Nat2Z.id.
    apply (add_lines_array_loop plot_method x y rows kw); [done|done|].
    intros i row Hi. done.
  - intros ind name v Hv. by rewrite lookup_fmap, Hv.
  - done.
  - done.
  - intros ind l v Hind Hv. unfold per_row, per_series. simpl.
    by rewrite (py_index_in_range l ind v).
  - intros ind l Hind. unfold per_row, per_series. simpl.
    rewrite py_index_out_of_range; [done|lia].
Qed.

Lemma add_lines_array_resolves_per_row_witness :
  lower "ARRAY" = "array"
  ∧ add_lines_with record_call
      (VList [VList [VInt 0; VInt 1]; VList [VInt 2; VInt 3]])
      (VList [VList [VInt 1; VInt 2]; VList [VInt 3; VInt 4]])
      "ARRAY"
      (<["color" := VStr "red"]>
         (<["label" := VList [VStr "first"]]> ∅))
      session_1x1
    = (record_call (VList [VInt 0; VInt 1]) [VList [VInt 1; VInt 2]]
         (<["color" := VStr "red"]> (<["label" := VStr "first"]> ∅)) ;;
       record_call (VList [VInt 2; VInt 3]) [VList [VInt 3; VInt 4]]
         (<["color" := VStr "red"]> (<["label" := VList [VStr "first"]]> ∅)) ;;
       ret tt) session_1x1.
Proof.
  split; [reflexivity|].
  exact (proj1 (add_lines_array_resolves_per_row record_call
           (VList [VList [VInt 0; VInt 1]; VList [VInt 2; VInt 3]])
           (VList [VList [VInt 1; VInt 2]; VList [VInt 3; VInt 4]])
           [VList [VInt 1; VInt 2]; VList [VInt 3; VInt 4]]
           "ARRAY"
           (<["color" := VStr "red"]> (<["label" := VList [VStr "first"]]> ∅))
           session_1x1 eq_refl (or_introl eq_refl))).
Defined.

Lemma py_len_error_iter (y : pyval) (e : exn) :
  py_len y = inl e → py_iter y = inl TypeError ∧ e = TypeError.
Proof. destruct y; simpl; intros [= <-] || intros [=]; done. Qed.

Lemma py_len_zero_iter (y : pyval) : py_len y = inr 0 → py_iter y = inr [].
Proof.
  destruct y as [| | | |s|l|l|d|]; simpl; try done; intros [= Hlen].
  - by destruct s.
  - by destruct l.
  - by destruct l.
  - by destruct d.
Qed.

(** X14.  In either mode, when [y] has no length (a number, [None], a
    surface), [add_lines] raises [TypeError] before any plot call and
    changes nothing; when [y] is empty it returns normally having done
    nothing at all, not even printed. *)
Theorem add_lines_without_series
    (plot_method : pyval → list pyval → gmap string pyval → M unit)
    (x y : pyval) (mode : string) (kw : gmap string pyval) (st : St) :
  lower mode = "dict" ∨ lower mode = "array" →
  (∀ e, py_len y = inl e →
     add_lines_with plot_method x y mode kw st = (inl TypeError, st))
  ∧ (py_len y = inr 0 →
     add_lines_with plot_method x y mode kw st = (inr tt, st)).
Proof.
  intros Hmode. split.
  - intros e He. destruct (py_len_error_iter y e He) as [Hiter ->].
    unfold add_lines_with. destruct Hmode as [Hm|Hm].
    + rewrite decide_True by done. unfold bind. by rewrite Hiter.
    + rewrite decide_False by (rewrite Hm; discriminate).
      rewrite decide_True by done. unfold bind. by rewrite He.
  - intros Hlen. pose proof (py_len_zero_iter y Hlen) as Hiter.
    unfold add_lines_with. destruct Hmode as [Hm|Hm].
    + rewrite decide_True by done. unfold bind. by rewrite Hiter.
    + rewrite decide_False by (rewrite Hm; discriminate).
      rewrite decide_True by done. unfold bind. by rewrite Hlen.
Qed.

Lemma add_lines_without_series_witness :
  (lower "dict" = "dict" ∨ lower "dict" = "array")
  ∧ add_lines_with record_call (VList [VInt 1]) VNone "dict" ∅ session_1x1
    = (inl TypeError, session_1x1)
  ∧ add_lines_with record_call (VList [VInt 1]) (VDict []) "dict" ∅ session_1x1
    = (inr tt, session_1x1).
Proof.
  split; [by left|]. split.
  - exact (proj1 (add_lines_without_series record_call (VList [VInt 1]) VNone
             "dict" ∅ session_1x1 (or_introl eq_refl)) TypeError eq_refl).
  - exact (proj2 (add_lines_without_series record_call (VList [VInt 1])
             (VDict []) "dict" ∅ session_1x1 (or_introl eq_refl)) eq_refl).
Defined.



Lemma add_lines_dict_loop
    (plot_method : pyval → list pyval → gmap string pyval → M unit)
    (x : pyval) (d : list (pykey * pyval)) (kw : gmap string pyval) :
  NoDup d.*1 →
  ∀ (l : list (pykey * pyval)) (st : St),
    l ⊆ d →
    for_each (key_val ∘ fst <$> l) (λ key,
      let loop_kwargs :=
        (λ v, match getitem v key with inr w => w | inl _ => v end) <$> kw in
      let x_loop := match getitem x key with inr w => w | inl _ => x end in
      y_key <- lift (getitem (VDict d) key) ;;
      plot_method x_loop [y_key] loop_kwargs) st
    = for_each l (λ series,
        plot_method (per_series (key_val series.1) x) [series.2]
                    (per_series (key_val series.1) <$> kw)) st.
Proof.
  intros Hnd. induction l as [|[k v] l IH]; intros st Hsub; [done|].
  rewrite fmap_cons.
  change ((key_val ∘ fst) (k, v)) with (key_val k).
  cbn [for_each]. unfold bind at 1 3. cbv zeta. unfold bind at 1.
  rewrite getitem_dict_key, (dict_get_elem d k v); [|done|apply Hsub; by left].
  cbn [from_option lift ret fst snd].
  fold (per_series (key_val k) x). fold (per_series (key_val k)).
  unfold bind at 1.
  destruct (plot_method _ _ _ st) as [[e|[]] st']; [done|].
  apply (IH st'). intros kv Hkv. apply Hsub. by right.
Qed.

Lemma plot_state_keeps_default `{R : Renderer} (a a' : Axes) (x : pyval)
    (args : list pyval) (kw : gmap string pyval) (st : St) :
  default_ax (self st) = Some a →
  default_ax (self (plot_state a' x args kw st)) = Some a.
Proof. done. Qed.

(** X16.  In dict mode on a session in use, with options none of which is
    named [x], [self] or [ax], [add_lines] succeeds: it draws every series
    of [y], in the order of [y], on the session's default surface, each
    with the options [plot] makes of the session defaults and that series'
    options, and the default surface is still the same afterwards. *)
Theorem add_lines_dict_draws_every_series `{R : Renderer} (nrows ncols : Z)
    (a : Axes) (x : pyval) (d : list (pykey * pyval)) (mode : string)
    (kw : gmap string pyval) (st : St) :
  well_formed nrows ncols (self st) →
  default_ax (self st) = Some a →
  lower mode = "dict" →
  NoDup d.*1 →
  kw !! "x" = None → kw !! "self" = None → kw !! "ax" = None →
  ∃ st',
    add_lines x (VDict d) mode kw st = (inr tt, st')
    ∧ draw_calls (trace (world st')) =
        draw_calls (trace (world st))
        ++ ((λ series,
               (a, per_series (key_val series.1) x, [series.2],
                plot_settings (_plot_settings_default (self st))
                              (per_series (key_val series.1) <$> kw)))
            <$> d)
    ∧ default_ax (self st') = Some a
    ∧ well_formed nrows ncols (self st').
Proof.
  intros Hwf Hdef Hmode Hnd Hx Hself Hax.
  assert (∀ key x' args' st0,
            well_formed nrows ncols (self st0) →
            default_ax (self st0) = Some a →
            plot_call x' args' (per_series key <$> kw) st0
            = (inr tt, plot_state a x' args' (per_series key <$> kw) st0))
    as Hcall.
  { intros key x' args' st0 Hwf0 Hdef0. unfold plot_call.
    rewrite bool_decide_eq_false_2.
    - rewrite !lookup_fmap, Hax. simpl.
      rewrite delete_id by (by rewrite lookup_fmap, Hax).
      by apply (plot_default_run nrows ncols).
    - rewrite !lookup_fmap, Hx, Hself. simpl. by intros [[? ?]|[? ?]]. }
  unfold add_lines, add_lines_with. rewrite decide_True by done.
  simpl py_iter. unfold bind at 1. unfold lift at 1, ret at 1.
  rewrite (add_lines_dict_loop plot_call x d kw Hnd d st) by done.
  set (defaults := _plot_settings_default (self st)).
  assert (_plot_settings_default (self st) = defaults) as Hd by done.
  clearbody defaults. clear Hnd.
  revert st Hwf Hdef Hd. induction d as [|[k v] d IH]; intros st Hwf Hdef Hd.
  - exists st. simpl. by rewrite app_nil_r.
  - cbn [for_each fst snd]. unfold bind at 1.
    rewrite Hcall by done.
    destruct (IH (plot_state a (per_series (key_val k) x) [v]
                    (per_series (key_val k) <$> kw) st))
      as (st' & Hrun & Hdraw & Hdef' & Hwf'); [done|done|done|].
    exists st'. split_and!; [done| |done|done].
    rewrite Hdraw, plot_state_draw_calls, Hd, fmap_cons, <- app_assoc. done.
Qed.

Lemma add_lines_dict_draws_every_series_witness :
  well_formed 1 1 (self session_1x1)
  ∧ ∃ st',
      @add_lines pyplot (VList [VInt 0; VInt 1])
        (VDict [(KStr "a", VList [VInt 1; VInt 2]);
                (KStr "b", VList [VInt 3; VInt 4])])
        "dict" (<["color" := VStr "red"]> ∅) session_1x1
      = (inr tt, st')
      ∧ draw_calls (trace (world st'))
        = [(mkAxes 0 0 0, VList [VInt 0; VInt 1], [VList [VInt 1; VInt 2]],
            <["linestyle" := VStr "-"]> ∅);
           (mkAxes 0 0 0, VList [VInt 0; VInt 1], [VList [VInt 3; VInt 4]],
            <["linestyle" := VStr "-"]> ∅)].
Proof.
  split; [exact session_1x1_well_formed|].
  assert (NoDup [KStr "a"; KStr "b"]) as Hnd.
  { apply NoDup_cons. split; [by intros ?%list_elem_of_singleton|].
    apply NoDup_singleton. }
  assert ((<["color" := VStr "red"]> (∅ : gmap string pyval)) !! "x" = None)
    as Hx by (vm_compute; reflexivity).
  assert ((<["color" := VStr "red"]> (∅ : gmap string pyval)) !! "self" = None)
    as Hself by (vm_compute; reflexivity).
  assert ((<["color" := VStr "red"]> (∅ : gmap string pyval)) !! "ax" = None)
    as Hax by (vm_compute; reflexivity).
  destruct (@add_lines_dict_draws_every_series pyplot 1 1 (mkAxes 0 0 0)
              (VList [VInt 0; VInt 1])
              [(KStr "a", VList [VInt 1; VInt 2]);
               (KStr "b", VList [VInt 3; VInt 4])]
              "dict" (<["color" := VStr "red"]> ∅) session_1x1
              session_1x1_well_formed eq_refl eq_refl Hnd Hx Hself Hax)
    as (st' & Hrun & Hdraw & _).
  exists st'. split; [exact Hrun|]. rewrite Hdraw. reflexivity.
Defined.

(** ** The methods that use a [kwargs] store *)

Lemma set_kwargs_id (kw : gmap string pyval) (s : Session) :
  kwargs s = Some kw → set_kwargs kw s = s.
Proof. destruct s. simpl. by intros ->. Qed.

(** One clearing step of [autoscale]. *)
Lemma clear_limit_run (name : string) (cond : bool) (kw : gmap string pyval)
    (s : Session) (w : Env) :
  kwargs s = Some kw →
  (if bool_decide (is_Some (kw !! name)) && cond
   then modify (set_kwargs (delete name kw)) else ret tt) (mkSt s w)
  = (inr tt, mkSt (set_kwargs (if cond then delete name kw else kw) s) w).
Proof.
  intros Hkw. destruct cond.
  - rewrite andb_true_r. case_bool_decide as Hname.
    + done.
    + unfold ret. rewrite delete_id; [by rewrite set_kwargs_id|].
      by apply eq_None_not_Some.
  - rewrite andb_false_r. unfold ret. by rewrite set_kwargs_id.
Qed.

(** X17.  Where a [kwargs] store holding a surface under 'ax' has been
    attached to the session, [autoscale] asks that surface to autoscale,
    then removes the stored 'xlim' when the axis is 'x' or 'both' and the
    stored 'ylim' when it is 'y' or 'both', whatever [enable] is, even
    [False]; every other entry of the store stays, and a redraw follows. *)
Theorem autoscale_clears_the_limits_of_the_axis (enable axis tight : pyval)
    (a : Axes) (kw : gmap string pyval) (s : Session) (w : Env) :
  kwargs s = Some kw →
  kw !! "ax" = Some (VAxes a) →
  let on_x := is_str axis "x" || is_str axis "both" in
  let on_y := is_str axis "y" || is_str axis "both" in
  let kw1 := if on_x then delete "xlim" kw else kw in
  let kw2 := if on_y then delete "ylim" kw1 else kw1 in
  autoscale enable axis tight (mkSt s w)
  = (inr tt,
     mkSt (set_kwargs kw2 s)
          (with_trace w (EvAutoscale a enable axis tight :: redraw_events s w)
                      0)).
Proof.
  intros Hkw Hax on_x on_y kw1 kw2. unfold autoscale, get_axes.
  unfold bind at 1. unfold bind at 1. unfold self_kwargs at 1.
  unfold bind at 1. unfold gets at 1. cbn [self]. rewrite Hkw.
  unfold ret at 1. rewrite Hax. cbn [from_option lift]. unfold ret at 1.
  unfold bind at 1. unfold emit at 1, env_modify at 1. cbn [self world].
  unfold bind at 1. unfold self_kwargs at 1.
  unfold bind at 1. unfold gets at 1. cbn [self]. rewrite Hkw.
  unfold ret at 1. unfold bind at 1.
  rewrite (clear_limit_run "xlim" on_x kw s _ Hkw). fold kw1.
  unfold bind at 1. unfold self_kwargs at 1.
  unfold bind at 1. unfold gets at 1. cbn [self kwargs set_kwargs].
  unfold ret at 1. unfold bind at 1.
  rewrite (clear_limit_run "ylim" on_y kw1 (set_kwargs kw1 s) _ eq_refl).
  fold kw2. rewrite redraw_run. cbn [self world].
  unfold with_trace, redraw_events. cbn.
  by rewrite <- app_assoc, !Nat.add_0_r.
Qed.

Lemma autoscale_clears_the_limits_of_the_axis_witness :
  let kw : gmap string pyval :=
    <["ax" := VAxes (mkAxes 0 0 0)]>
      (<["xlim" := VTuple [VInt 0; VInt 10]]>
         (<["ylim" := VTuple [VInt 0; VInt 5]]> ∅)) in
  kwargs (set_kwargs kw (self session_1x1)) = Some kw
  ∧ kw !! "ax" = Some (VAxes (mkAxes 0 0 0))
  ∧ ∃ st',
      autoscale (VBool false) (VStr "x") VNone
        (mkSt (set_kwargs kw (self session_1x1)) (world session_1x1))
      = (inr tt, st')
      ∧ kwargs (self st')
        = Some (<["ax" := VAxes (mkAxes 0 0 0)]>
                  (<["ylim" := VTuple [VInt 0; VInt 5]]> ∅)).
Proof.
  intros kw.
  assert (kw !! "ax" = Some (VAxes (mkAxes 0 0 0))) as Hax
    by (vm_compute; reflexivity).
  split; [reflexivity|]. split; [exact Hax|].
  eexists. split.
  - exact (autoscale_clears_the_limits_of_the_axis (VBool false) (VStr "x")
             VNone (mkAxes 0 0 0) kw (set_kwargs kw (self session_1x1))
             (world session_1x1) eq_refl Hax).
  - vm_compute. reflexivity.
Defined.

Lemma delete_param_run (param : string) (kw : gmap string pyval)
    (s : Session) (w : Env) :
  kwargs s = Some kw →
  (kw0 <- self_kwargs ;; modify (set_kwargs (delete param kw0))) (mkSt s w)
  = (inr tt, mkSt (set_kwargs (delete param kw) s) w).
Proof.
  intros Hkw. unfold self_kwargs. unfold bind, gets. cbn [self]. by rewrite Hkw.
Qed.

(** X18.  Where a [kwargs] store has been attached to the session,
    [_delete_uniqueparams] succeeds, changes nothing outside the store and
    the colour cycle, removes 'color', 'label', 'marker', 'linestyle' and
    'colorcycle' from the store and leaves every other entry; the value
    stored under 'colorcycle', if any, is kept as the session's colour
    cycle. *)
Theorem delete_uniqueparams_strips_the_store (kw : gmap string pyval)
    (s : Session) (w : Env) :
  kwargs s = Some kw →
  ∃ s',
    _delete_uniqueparams (mkSt s w) = (inr tt, mkSt s' w)
    ∧ (∃ kw', kwargs s' = Some kw'
         ∧ (∀ key, key ∈ Cls._uniqueparams → kw' !! key = None)
         ∧ (∀ key, key ∉ Cls._uniqueparams → kw' !! key = kw !! key))
    ∧ _colorcycle s' = default (_colorcycle s) (kw !! "colorcycle")
    ∧ (_legends s', _figure_settings s', _legend_settings s',
       _plot_settings_default s', _other_defaults s', _fig s', _axes s',
       default_ax s')
      = (_legends s, _figure_settings s, _legend_settings s,
         _plot_settings_default s, _other_defaults s, _fig s, _axes s,
         default_ax s).
Proof.
  intros Hkw.
  set (s1 := match kw !! "colorcycle" with
             | Some v => set_colorcycle v s
             | None => s
             end).
  set (kw' := delete "colorcycle" (delete "linestyle" (delete "marker"
                (delete "label" (delete "color" kw))))).
  exists (set_kwargs kw' s1). split_and!.
  - assert (kwargs s1 = Some kw) as Hkw1.
    { unfold s1. by destruct (kw !! "colorcycle"). }
    unfold _delete_uniqueparams.
    unfold bind at 1. unfold self_kwargs at 1.
    unfold bind at 1. unfold gets at 1. cbn [self]. rewrite Hkw.
    unfold ret at 1. unfold bind at 1.
    assert (match kw !! "colorcycle" with
            | Some v => modify (set_colorcycle v)
            | None => ret tt
            end (mkSt s w) = (inr tt, mkSt s1 w)) as ->.
    { unfold s1. by destruct (kw !! "colorcycle"). }
    unfold Cls._uniqueparams. cbn [for_each].
    unfold bind at 1. rewrite (delete_param_run "color" kw) by done.
    unfold bind at 1. rewrite (delete_param_run "label" _) by done.
    unfold bind at 1. rewrite (delete_param_run "marker" _) by done.
    unfold bind at 1. rewrite (delete_param_run "linestyle" _) by done.
    unfold bind at 1. rewrite (delete_param_run "colorcycle" _) by done.
    done.
  - exists kw'. split; [done|]. split.
    + intros key Hkey. unfold kw', Cls._uniqueparams in *.
      repeat (apply elem_of_cons in Hkey as [->|Hkey];
              [by rewrite ?lookup_delete_eq, ?(lookup_delete_ne _ _ _)
                 by discriminate; rewrite ?lookup_delete_eq|]).
      by apply elem_of_nil in Hkey.
    + intros key Hkey. unfold kw'.
      rewrite !lookup_delete_ne; [done|..];
        intros <-; apply Hkey; unfold Cls._uniqueparams;
        repeat first [by left | right].
  - unfold s1. by destruct (kw !! "colorcycle").
  - unfold s1. by destruct (kw !! "colorcycle").
Qed.

Lemma delete_uniqueparams_strips_the_store_witness :
  let kw : gmap string pyval :=
    <["label" := VStr "A"]> (<["xlim" := VTuple [VInt 0; VInt 1]]> ∅) in
  kwargs (set_kwargs kw (self session_1x1)) = Some kw
  ∧ ∃ s',
      _delete_uniqueparams
        (mkSt (set_kwargs kw (self session_1x1)) (world session_1x1))
      = (inr tt, mkSt s' (world session_1x1))
      ∧ ∃ kw', kwargs s' = Some kw'
          ∧ (∀ key, key ∈ Cls._uniqueparams → kw' !! key = None)
          ∧ (∀ key, key ∉ Cls._uniqueparams → kw' !! key = kw !! key).
Proof.
  intros kw. split; [reflexivity|].
  destruct (delete_uniqueparams_strips_the_store kw
              (set_kwargs kw (self session_1x1)) (world session_1x1) eq_refl)
    as (s' & Hrun & Hstore & _).
  exists s'. split; [exact Hrun|exact Hstore].
Defined.

(** ** Smaller methods *)


(** X20.  [update_plot] passes its options to [plot] and nothing else, and
    [plot] cannot run without [x]: unless the options hold one named [x],
    the call raises [TypeError] and changes nothing, as for the title and
    label options of its own docstring. *)
Theorem update_plot_without_x_raises `{R : Renderer} (kw : gmap string pyval)
    (st : St) :
  kw !! "x" = None →
  update_plot kw st = (inl TypeError, st).
Proof.
  intros Hx. unfold update_plot. rewrite Hx. by case_bool_decide.
Qed.

Lemma update_plot_without_x_raises_witness :
  (<["title" := VStr "Title"]> (<["xlabel" := VStr "xlabel"]>
     (∅ : gmap string pyval))) !! "x" = None
  ∧ @update_plot pyplot
      (<["title" := VStr "Title"]> (<["xlabel" := VStr "xlabel"]> ∅))
      session_1x1
    = (inl TypeError, session_1x1).
Proof.
  assert ((<["title" := VStr "Title"]> (<["xlabel" := VStr "xlabel"]>
             (∅ : gmap string pyval))) !! "x" = None) as Hx
    by (vm_compute; reflexivity).
  split; [exact Hx|].
  exact (@update_plot_without_x_raises pyplot
           (<["title" := VStr "Title"]> (<["xlabel" := VStr "xlabel"]> ∅))
           session_1x1 Hx).
Defined.

Lemma get_axis_pure (t : target) (st : St) : (get_axis t st).2 = st.
Proof.
  destruct t as [s|a|l|l|n|]; try done.
  - by rewrite (proj1 (get_axis_seq l st)).
  - by rewrite (proj2 (get_axis_seq l st)).
Qed.

(** X21.  [set_default_axis] is all or nothing.  [get_axis] never changes
    anything; when it fails on the target, [set_default_axis] fails the
    same way and leaves the default surface and the renderer as they were;
    when it yields a surface, that surface is returned, becomes the
    session's default and is made the renderer's current surface. *)
Theorem set_default_axis_all_or_nothing (t : target) (st : St) :
  (get_axis t st).2 = st
  ∧ set_default_axis t st
    = match (get_axis t st).1 with
      | inr a => (inr a, mkSt (set_default_ax a (self st))
                              (with_trace (world st) [EvSca a] 0))
      | inl e => (inl e, st)
      end.
Proof.
  split; [apply get_axis_pure|].
  destruct t as [s|a|l|l|n|]; try done.
  - unfold set_default_axis. unfold_monad. simpl.
    unfold with_trace. by rewrite Nat.add_0_r.
  - rewrite (set_default_axis_seq (TTuple l) l) by (by left).
    rewrite (proj1 (get_axis_seq l st)). done.
  - rewrite (set_default_axis_seq (TList l) l) by (by right).
    rewrite (proj2 (get_axis_seq l st)). done.
Qed.



(** X23.  [_update_legend] files the legend under the very object it was
    given, after the renderer has built the legend.  Given a list of
    indices, which resolves like a tuple but cannot be a dictionary key,
    it therefore raises [TypeError] once the legend exists: the renderer
    has made the legend, and the registry is unchanged. *)
Theorem update_legend_with_a_list_raises_late (l : list Z) (a : Axes)
    (st : St) :
  get_axis (TList l) st = (inr a, st) →
  is_Some (_other_defaults (self st) !! "showlegend") →
  _update_legend (TList l) st
  = (inl TypeError,
     mkSt (self st)
          (with_trace (world st) (legend_events (self st) (world st) a)
             (match legend_made (self st) (world st) with
              | Some _ => 1
              | None => 0
              end)%nat)).
Proof.
  intros Hax [show Hshow]. unfold _update_legend.
  unfold bind at 1. rewrite Hax.
  unfold legend_events, legend_made, with_trace.
  destruct st as [s w]. simpl in *. unfold ax_legend. unfold_monad. simpl.
  rewrite Hshow. simpl.
  destruct (py_truth show); simpl.
  - by rewrite <- app_assoc, Nat.add_1_r.
  - rewrite app_nil_r, Nat.add_0_r. by destruct w.
Qed.

Lemma update_legend_with_a_list_raises_late_witness :
  get_axis (TList [0; 1]) session_2x2 = (inr (mkAxes 0 0 1), session_2x2)
  ∧ is_Some (_other_defaults (self session_2x2) !! "showlegend")
  ∧ _update_legend (TList [0; 1]) session_2x2
    = (inl TypeError,
       mkSt (self session_2x2)
            (mkEnv false [] 1 1
               (trace (world session_2x2)
                ++ [EvLegend (mkAxes 0 0 1) Cls._legend_defaults 0;
                    EvDraggable 0]))).
Proof.
  assert (get_axis (TList [0; 1]) session_2x2
          = (inr (mkAxes 0 0 1), session_2x2)) as Hax
    by (by rewrite (proj2 (get_axis_pair 0 1 session_2x2))).
  assert (is_Some (_other_defaults (self session_2x2) !! "showlegend"))
    as Hshow by (by eexists).
  split; [exact Hax|]. split; [exact Hshow|].
  exact (update_legend_with_a_list_raises_late [0; 1] (mkAxes 0 0 1)
           session_2x2 Hax Hshow).
Defined.
